(** * Order tracking and review handlers

    A shallow embedding of the two serverless handlers of the repository:
    the shipping webhook handler (order status updates) and
    [netlify/functions/submit-review.ts] (customer reviews).

    Modelling conventions.
    - A request body is represented after [JSON.parse]: absent, malformed,
      or decoded to the handler's TypeScript interface, every field of
      which may be missing.
    - A JavaScript string is a [string] holding its UTF-8 bytes; a
      missing field is [None].  A string is truthy when it is present
      and non-empty.  [trim] removes the white space and line
      terminators of ECMAScript, ASCII or not.  Letter case is changed
      on the ASCII letters, which is exact where the handlers use it: a
      comparison with "delivered" and the base-36 digits of the
      identifier.
    - A JSON number is a rational: every finite double is one, and the
      review handler only compares the rating with 0, 1 and 5.
    - The Order Store is a finite map from order identifiers to order
      records; the Review Store is a list.  Records have the fields the
      handlers and the interfaces name.  [orders[key]] finds the record
      stored under the key and, for a key the document lacks, the member
      every object inherits from [Object.prototype] under that name
      ("constructor", "__proto__", "toString", ...).  Such a built-in
      object is read as a fresh process has it, without any of the order
      fields; what a handler assigns to it is in neither document and is
      not carried to a later invocation.
    - The filesystem holds the two documents.  A document that is missing
      or does not parse is [None].  [fs.writeFile] may fault; whether it
      does is decided by the environment of the invocation, as are the
      clock and the random source.  Every attempted write is logged.
      Console output is not modelled.
    - Invocations are sequential: one runs to its response before the
      next starts. *)

From Stdlib Require Import QArith.
From Stdlib Require Import String Ascii DecimalString.
From stdpp Require Import gmap strings list fin_maps.

Local Open Scope string_scope.

(** ** JavaScript string primitives *)

Module Js.

Definition is_upper (c : ascii) : bool :=
  (65 <=? nat_of_ascii c)%nat && (nat_of_ascii c <=? 90)%nat.

Definition is_lower (c : ascii) : bool :=
  (97 <=? nat_of_ascii c)%nat && (nat_of_ascii c <=? 122)%nat.

Definition lower_char (c : ascii) : ascii :=
  if is_upper c then ascii_of_nat (nat_of_ascii c + 32) else c.

Definition upper_char (c : ascii) : ascii :=
  if is_lower c then ascii_of_nat (nat_of_ascii c - 32) else c.

Fixpoint map_string (f : ascii -> ascii) (s : string) : string :=
  match s with
  | EmptyString => EmptyString
  | String c s' => String (f c) (map_string f s')
  end.

(** [s.toLowerCase()] and [s.toUpperCase()] on the ASCII letters. *)
Definition toLowerCase : string -> string := map_string lower_char.
Definition toUpperCase : string -> string := map_string upper_char.

(** [s.substring(i, j)] for [i <= j]. *)
Definition substring (i j : nat) (s : string) : string :=
  String.substring i (j - i) s.

(** The code points [s.trim()] removes: the WhiteSpace and
    LineTerminator code points of ECMAScript, that is tab, line feed,
    vertical tab, form feed, carriage return, space, no-break space,
    the other space separators of Unicode (U+1680, U+2000 to U+200A,
    U+202F, U+205F, U+3000), the line and paragraph separators and the
    byte order mark. *)
Definition white_space_code_points : list N :=
  [ 0x9; 0xA; 0xB; 0xC; 0xD; 0x20; 0xA0; 0x1680;
    0x2000; 0x2001; 0x2002; 0x2003; 0x2004; 0x2005; 0x2006; 0x2007;
    0x2008; 0x2009; 0x200A; 0x2028; 0x2029; 0x202F; 0x205F; 0x3000;
    0xFEFF ]%N.

(** The UTF-8 bytes of a code point below U+10000. *)
Definition utf8 (cp : N) : list ascii :=
  if (cp <? 0x80)%N then [ascii_of_N cp]
  else if (cp <? 0x800)%N then
    [ascii_of_N (0xC0 + cp / 64); ascii_of_N (0x80 + cp mod 64)]
  else
    [ascii_of_N (0xE0 + cp / 4096);
     ascii_of_N (0x80 + (cp / 64) mod 64);
     ascii_of_N (0x80 + cp mod 64)].

(** White space as it stands in a string. *)
Definition white_space : list (list ascii) :=
  map utf8 white_space_code_points.

(** [l] without its prefix [p], if it starts with [p]. *)
Fixpoint strip_prefix (p l : list ascii) : option (list ascii) :=
  match p, l with
  | [], _ => Some l
  | a :: p', b :: l' => if Ascii.eqb a b then strip_prefix p' l' else None
  | _ :: _, [] => None
  end.

(** [l] without the entry of [table] it starts with, if there is one. *)
Fixpoint strip_any (table : list (list ascii)) (l : list ascii)
    : option (list ascii) :=
  match table with
  | [] => None
  | e :: table' =>
      match strip_prefix e l with
      | Some rest => Some rest
      | None => strip_any table' l
      end
  end.

(** Entries of [table] are removed from the front of [l] as long as
    there is one; [fuel] bounds their number. *)
Fixpoint drop_spaces (table : list (list ascii)) (fuel : nat)
    (l : list ascii) : list ascii :=
  match fuel with
  | O => l
  | S fuel' =>
      match strip_any table l with
      | Some rest => drop_spaces table fuel' rest
      | None => l
      end
  end.

(** [s.trim()]: white space is removed at both ends. *)
Definition trim_list (l : list ascii) : list ascii :=
  let m := drop_spaces white_space (length l) l in
  rev (drop_spaces (map (@rev ascii) white_space) (length m) (rev m)).

Definition trim (s : string) : string :=
  string_of_list_ascii (trim_list (list_ascii_of_string s)).

(** Concatenations of entries of [table]. *)
Inductive spaces_of (table : list (list ascii)) : list ascii -> Prop :=
| spaces_nil : spaces_of table []
| spaces_cons (e l : list ascii) :
    In e table -> spaces_of table l -> spaces_of table (e ++ l)%list.

(** Sequences of white space. *)
Definition spaces : list ascii -> Prop := spaces_of white_space.

(** The names of the members every object inherits from
    [Object.prototype]. *)
Definition inherited_names : list string :=
  [ "constructor"; "__defineGetter__"; "__defineSetter__";
    "hasOwnProperty"; "__lookupGetter__"; "__lookupSetter__";
    "isPrototypeOf"; "propertyIsEnumerable"; "toString"; "valueOf";
    "__proto__"; "toLocaleString" ].

Definition inherited (key : string) : bool :=
  existsb (String.eqb key) inherited_names.

(** Truthiness of an optional string: present and non-empty. *)
Definition truthy (x : option string) : bool :=
  match x with
  | Some (String _ _) => true
  | _ => false
  end.

(** [a || b] on optional strings. *)
Definition or (a b : option string) : option string :=
  if truthy a then a else b.

(** [a && b] where [a] is an array (always truthy when present). *)
Definition and_then {A B : Type} (a : option A) (b : A -> option B) : option B :=
  match a with
  | Some x => b x
  | None => None
  end.

(** Truthiness of a number: anything but zero. *)
Definition truthy_num (x : option Q) : bool :=
  match x with
  | Some q => negb (Qeq_bool q 0)
  | None => false
  end.

Definition Qltb (x y : Q) : bool := negb (Qle_bool y x).

(** [String(n)] for a non-negative integer. *)
Definition string_of_N (n : N) : string :=
  NilZero.string_of_uint (N.to_uint n).

End Js.

(** ** Data model *)

(** One entry of [trackingUpdates], as pushed by the webhook handler. *)
Record TrackingUpdate := {
  tu_status : option string;
  tu_previousStatus : option string;
  tu_updatedAt : option string;
  tu_deliveryDate : option string;
  tu_remarks : option string;
  tu_location : option string;
}.

Record Item := {
  item_name : option string;
}.

(** An order record.  [rest] stands for the fields written by the
    order-placement system that neither handler reads or writes. *)
Record Order := {
  status : option string;
  lastUpdated : option string;
  trackingUpdates : option (list TrackingUpdate);
  deliveredAt : option string;
  canReview : option bool;
  hasReview : option bool;
  reviewId : option string;
  customerName : option string;
  items : option (list Item);
  rest : list (string * string);
}.

(** [interface WebhookPayload] *)
Record WebhookPayload := {
  awb_number : option string;
  order_number : option string;
  current_status : option string;
  previous_status : option string;
  updated_at : option string;
  delivery_date : option string;
  remarks : option string;
  location : option string;
}.

(** [interface ReviewRequest] *)
Record ReviewRequest := {
  rq_orderId : option string;
  rq_rating : option Q;
  rq_comment : option string;
  rq_imageUrl : option string;
  rq_customerName : option string;
  rq_productName : option string;
}.

(** [interface Review] *)
Record Review := {
  rv_id : string;
  rv_orderId : string;
  rv_rating : Q;
  rv_comment : string;
  rv_imageUrl : option string;
  rv_customerName : option string;
  rv_productName : option string;
  rv_createdAt : string;
  rv_verified : bool;
}.

(** Field assignments [order.f = v]. *)
Definition set_status (v : option string) (o : Order) : Order :=
  {| status := v; lastUpdated := lastUpdated o;
     trackingUpdates := trackingUpdates o; deliveredAt := deliveredAt o;
     canReview := canReview o; hasReview := hasReview o;
     reviewId := reviewId o; customerName := customerName o;
     items := items o; rest := rest o |}.

Definition set_lastUpdated (v : option string) (o : Order) : Order :=
  {| status := status o; lastUpdated := v;
     trackingUpdates := trackingUpdates o; deliveredAt := deliveredAt o;
     canReview := canReview o; hasReview := hasReview o;
     reviewId := reviewId o; customerName := customerName o;
     items := items o; rest := rest o |}.

Definition set_trackingUpdates (v : option (list TrackingUpdate)) (o : Order) : Order :=
  {| status := status o; lastUpdated := lastUpdated o;
     trackingUpdates := v; deliveredAt := deliveredAt o;
     canReview := canReview o; hasReview := hasReview o;
     reviewId := reviewId o; customerName := customerName o;
     items := items o; rest := rest o |}.

Definition set_deliveredAt (v : option string) (o : Order) : Order :=
  {| status := status o; lastUpdated := lastUpdated o;
     trackingUpdates := trackingUpdates o; deliveredAt := v;
     canReview := canReview o; hasReview := hasReview o;
     reviewId := reviewId o; customerName := customerName o;
     items := items o; rest := rest o |}.

Definition set_canReview (v : option bool) (o : Order) : Order :=
  {| status := status o; lastUpdated := lastUpdated o;
     trackingUpdates := trackingUpdates o; deliveredAt := deliveredAt o;
     canReview := v; hasReview := hasReview o;
     reviewId := reviewId o; customerName := customerName o;
     items := items o; rest := rest o |}.

Definition set_hasReview (v : option bool) (o : Order) : Order :=
  {| status := status o; lastUpdated := lastUpdated o;
     trackingUpdates := trackingUpdates o; deliveredAt := deliveredAt o;
     canReview := canReview o; hasReview := v;
     reviewId := reviewId o; customerName := customerName o;
     items := items o; rest := rest o |}.

Definition set_reviewId (v : option string) (o : Order) : Order :=
  {| status := status o; lastUpdated := lastUpdated o;
     trackingUpdates := trackingUpdates o; deliveredAt := deliveredAt o;
     canReview := canReview o; hasReview := hasReview o;
     reviewId := v; customerName := customerName o;
     items := items o; rest := rest o |}.

(** A built-in object read as an order: it has none of the fields. *)
Definition builtin : Order :=
  {| status := None; lastUpdated := None; trackingUpdates := None;
     deliveredAt := None; canReview := None; hasReview := None;
     reviewId := None; customerName := None; items := None; rest := [] |}.

(** What [orders[key]] finds. *)
Inductive Found :=
| OwnOrder (order : Order)
| BuiltIn.

(** [orders[key]]: the record stored under the key or, when the
    document has no such key, the member inherited under that name. *)
Definition get (orders : gmap string Order) (key : string) : option Found :=
  match orders !! key with
  | Some order => Some (OwnOrder order)
  | None => if Js.inherited key then Some BuiltIn else None
  end.

Definition as_order (found : Found) : Order :=
  match found with
  | OwnOrder order => order
  | BuiltIn => builtin
  end.

(** The document after the assignments [f] to the fields of
    [orders[key]]: assignments to a built-in object leave it as it is. *)
Definition assign (orders : gmap string Order) (key : string) (found : Found)
    (f : Order -> Order) : gmap string Order :=
  match found with
  | OwnOrder order => <[key := f order]> orders
  | BuiltIn => orders
  end.

(** ** Requests, responses and the world *)

(** The request body as [JSON.parse(event.body || '{}')] sees it. *)
Inductive Body (P : Type) :=
| BodyAbsent
| BodyMalformed (message : string)
| BodyJson (payload : P).
Arguments BodyAbsent {P}.
Arguments BodyMalformed {P} message.
Arguments BodyJson {P} payload.

Record Event (P : Type) := {
  httpMethod : string;
  body : Body P;
}.
Arguments httpMethod {P} _.
Arguments body {P} _.

(** Response bodies, before [JSON.stringify]. *)
Inductive ResponseBody :=
| NoContent
| ErrorBody (error : string)
| FailureBody (error details : string)
| WebhookOk (message order_number new_status : string)
| ReviewOk (review_id message : string) (review : Review).

Record Response := {
  statusCode : nat;
  headers : list (string * string);
  response_body : ResponseBody;
}.

Inductive Path := OrdersPath | ReviewsPath.

(** What [fs.writeFile] does: it completes, or it throws, leaving the
    document as it was or clobbered (truncated, hence unreadable). *)
Inductive WriteResult :=
| WriteOk
| WriteFault (message : string) (clobbered : bool).

Record World := {
  orders_file : option (gmap string Order);
  reviews_file : option (list Review);
  write_log : list Path;
}.

(** The environment of one invocation: successive readings of
    [new Date().toISOString()], [Date.now()], the base-36 rendering of
    [Math.random()], and the outcome of the successive writes. *)
Record Env := {
  iso_now : nat -> string;
  date_now : N;
  random36 : string;
  write_result : nat -> WriteResult;
}.

(** ** Handler computations

    A statement of a handler either falls through with a value, returns
    a response, or throws; the outermost [try]/[catch] of the handler
    turns a throw into the 500 response. *)

Inductive Step (A : Type) :=
| Next (a : A)
| Return (r : Response)
| Throw (message : string).
Arguments Next {A} a.
Arguments Return {A} r.
Arguments Throw {A} message.

Definition M (A : Type) : Type := World -> Step A * World.

Definition ret {A : Type} (a : A) : M A := fun w => (Next a, w).

Definition reply {A : Type} (r : Response) : M A := fun w => (Return r, w).

Definition throw {A : Type} (message : string) : M A := fun w => (Throw message, w).

Definition bind {A B : Type} (m : M A) (k : A -> M B) : M B := fun w =>
  match m w with
  | (Next a, w') => k a w'
  | (Return r, w') => (Return r, w')
  | (Throw e, w') => (Throw e, w')
  end.

Notation "'let*' x ':=' m 'in' k" := (bind m (fun x => k))
  (at level 10, x name, m at level 100, k at level 200).

(** [try { m } catch (error) { h error }] *)
Definition catch {A : Type} (m : M A) (h : string -> M A) : M A := fun w =>
  match m w with
  | (Throw e, w') => h e w'
  | other => other
  end.

(** The handler boundary: the value returned, or [on_error] of the fault. *)
Definition run (m : M Response) (on_error : string -> Response)
    (w : World) : Response * World :=
  match m w with
  | (Next r, w') => (r, w')
  | (Return r, w') => (r, w')
  | (Throw e, w') => (on_error e, w')
  end.

Definition JSON_parse {P : Type} (empty : P) (b : Body P) : M P :=
  match b with
  | BodyAbsent => ret empty
  | BodyMalformed message => throw message
  | BodyJson payload => ret payload
  end.

(** [JSON.parse(await fs.readFile(ordersPath, 'utf8'))] *)
Definition readOrders : M (gmap string Order) := fun w =>
  match orders_file w with
  | Some orders => (Next orders, w)
  | None => (Throw "orders.json: no such file or invalid JSON", w)
  end.

Definition readReviews : M (list Review) := fun w =>
  match reviews_file w with
  | Some reviews => (Next reviews, w)
  | None => (Throw "reviews.json: no such file or invalid JSON", w)
  end.

(** [await fs.writeFile(ordersPath, JSON.stringify(orders, null, 2))] *)
Definition writeOrders (r : WriteResult) (orders : gmap string Order) : M unit :=
  fun w =>
  match r with
  | WriteOk =>
      (Next tt, {| orders_file := Some orders;
                   reviews_file := reviews_file w;
                   write_log := (write_log w ++ [OrdersPath])%list |})
  | WriteFault message clobbered =>
      (Throw message,
       {| orders_file := if clobbered then None else orders_file w;
          reviews_file := reviews_file w;
          write_log := (write_log w ++ [OrdersPath])%list |})
  end.

Definition writeReviews (r : WriteResult) (reviews : list Review) : M unit :=
  fun w =>
  match r with
  | WriteOk =>
      (Next tt, {| orders_file := orders_file w;
                   reviews_file := Some reviews;
                   write_log := (write_log w ++ [ReviewsPath])%list |})
  | WriteFault message clobbered =>
      (Throw message,
       {| orders_file := orders_file w;
          reviews_file := if clobbered then None else reviews_file w;
          write_log := (write_log w ++ [ReviewsPath])%list |})
  end.

Definition respond (hs : list (string * string)) (code : nat)
    (b : ResponseBody) : Response :=
  {| statusCode := code; headers := hs; response_body := b |}.

(** ** The webhook handler *)

Module Webhook.

Definition corsHeaders : list (string * string) :=
  [("Access-Control-Allow-Origin", "*");
   ("Access-Control-Allow-Headers", "Content-Type, Authorization");
   ("Access-Control-Allow-Methods", "POST, OPTIONS")].

(** [JSON.parse('{}')] *)
Definition no_fields : WebhookPayload :=
  {| awb_number := None; order_number := None; current_status := None;
     previous_status := None; updated_at := None; delivery_date := None;
     remarks := None; location := None |}.

(** The object pushed onto [trackingUpdates]. *)
Definition tracking_entry (webhookData : WebhookPayload) : TrackingUpdate :=
  {| tu_status := current_status webhookData;
     tu_previousStatus := previous_status webhookData;
     tu_updatedAt := updated_at webhookData;
     tu_deliveryDate := delivery_date webhookData;
     tu_remarks := remarks webhookData;
     tu_location := location webhookData |}.

(** [current_status.toLowerCase() === 'delivered'] *)
Definition is_delivered (webhookData : WebhookPayload) : bool :=
  String.eqb (Js.toLowerCase (default "" (current_status webhookData)))
             "delivered".

(** [const orderNumber = webhookData.order_number] *)
Definition orderNumber (webhookData : WebhookPayload) : string :=
  default "" (order_number webhookData).

(** The assignments to [orders[orderNumber]], in source order. *)
Definition update_order (webhookData : WebhookPayload) (env : Env)
    (order : Order) : Order :=
  let order := set_status (current_status webhookData) order in
  let order := set_lastUpdated (Some (iso_now env 0)) order in
  let order :=
    set_trackingUpdates (Some (default [] (trackingUpdates order))) order in
  let order :=
    set_trackingUpdates
      (Some (default [] (trackingUpdates order) ++ [tracking_entry webhookData])%list)
      order in
  if is_delivered webhookData then
    let order :=
      set_deliveredAt
        (Js.or (delivery_date webhookData) (Some (iso_now env 1))) order in
    set_canReview (Some true) order
  else order.

Definition handler (event : Event WebhookPayload) (env : Env)
    : World -> Response * World :=
  if String.eqb (httpMethod event) "OPTIONS" then
    fun w => (respond corsHeaders 200 NoContent, w)
  else if negb (String.eqb (httpMethod event) "POST") then
    fun w => (respond corsHeaders 405 (ErrorBody "Method not allowed"), w)
  else
    run
      (let* webhookData := JSON_parse no_fields (body event) in
       if negb (Js.truthy (order_number webhookData))
          || negb (Js.truthy (current_status webhookData))
       then reply (respond corsHeaders 400
                     (ErrorBody "Missing required webhook data"))
       else
         let* orders :=
           catch readOrders
             (fun _ => reply (respond corsHeaders 404
                                (ErrorBody "Orders file not found"))) in
         let orderNumber := orderNumber webhookData in
         match get orders orderNumber with
         | None => reply (respond corsHeaders 404 (ErrorBody "Order not found"))
         | Some found =>
             let orders :=
               assign orders orderNumber found (update_order webhookData env) in
             let* _ := writeOrders (write_result env 0) orders in
             ret (respond corsHeaders 200
                    (WebhookOk "Order status updated successfully"
                       orderNumber
                       (default "" (current_status webhookData))))
         end)
      (fun message =>
         respond corsHeaders 500
           (FailureBody "Failed to process webhook" message)).

End Webhook.

(** ** The review handler *)

Module SubmitReview.

Definition corsHeaders : list (string * string) :=
  [("Access-Control-Allow-Origin", "*");
   ("Access-Control-Allow-Headers", "Content-Type");
   ("Access-Control-Allow-Methods", "POST, OPTIONS")].

Definition no_fields : ReviewRequest :=
  {| rq_orderId := None; rq_rating := None; rq_comment := None;
     rq_imageUrl := None; rq_customerName := None; rq_productName := None |}.

(** [reviewData.orderId], once it is known to be present. *)
Definition orderId (reviewData : ReviewRequest) : string :=
  default "" (rq_orderId reviewData).

(** [!reviewData.orderId || !reviewData.rating || !reviewData.comment] *)
Definition missing_fields (reviewData : ReviewRequest) : bool :=
  negb (Js.truthy (rq_orderId reviewData))
  || negb (Js.truthy_num (rq_rating reviewData))
  || negb (Js.truthy (rq_comment reviewData)).

(** [reviewData.rating < 1 || reviewData.rating > 5] *)
Definition out_of_range (reviewData : ReviewRequest) : bool :=
  let rating := default 0%Q (rq_rating reviewData) in
  Js.Qltb rating 1 || Js.Qltb 5 rating.

(** [!order.canReview && order.status?.toLowerCase() !== 'delivered'] *)
Definition not_reviewable (order : Order) : bool :=
  negb (bool_decide (canReview order = Some true))
  && negb (bool_decide (Js.toLowerCase <$> status order = Some "delivered")).

Definition new_reviewId (env : Env) : string :=
  "REV" ++ Js.string_of_N (date_now env)
        ++ Js.toUpperCase (Js.substring 2 8 (random36 env)).

(** [order.items && order.items[0]?.name] *)
Definition first_item_name (order : Order) : option string :=
  Js.and_then (items order) (fun its => Js.and_then (head its) item_name).

Definition make_review (reviewData : ReviewRequest) (order : Order)
    (env : Env) : Review :=
  {| rv_id := new_reviewId env;
     rv_orderId := orderId reviewData;
     rv_rating := default 0%Q (rq_rating reviewData);
     rv_comment := Js.trim (default "" (rq_comment reviewData));
     rv_imageUrl := Js.or (rq_imageUrl reviewData) None;
     rv_customerName :=
       Js.or (Js.or (rq_customerName reviewData) (customerName order))
             (Some "Anonymous");
     rv_productName :=
       Js.or (Js.or (rq_productName reviewData) (first_item_name order))
             (Some "Product");
     rv_createdAt := iso_now env 0;
     rv_verified := true |}.

Definition handler (event : Event ReviewRequest) (env : Env)
    : World -> Response * World :=
  if String.eqb (httpMethod event) "OPTIONS" then
    fun w => (respond corsHeaders 200 NoContent, w)
  else if negb (String.eqb (httpMethod event) "POST") then
    fun w => (respond corsHeaders 405 (ErrorBody "Method not allowed"), w)
  else
    run
      (let* reviewData := JSON_parse no_fields (body event) in
       if missing_fields reviewData then
         reply (respond corsHeaders 400
                  (ErrorBody "Missing required fields: orderId, rating, comment"))
       else if out_of_range reviewData then
         reply (respond corsHeaders 400
                  (ErrorBody "Rating must be between 1 and 5"))
       else
         let* orders := catch readOrders (fun _ => ret ∅) in
         let orderId := orderId reviewData in
         match get orders orderId with
         | None => reply (respond corsHeaders 404 (ErrorBody "Order not found"))
         | Some found =>
             let order := as_order found in
             if not_reviewable order then
               reply (respond corsHeaders 400
                        (ErrorBody "Can only review delivered orders"))
             else
               let review := make_review reviewData order env in
               let* reviews := catch readReviews (fun _ => ret []) in
               match find (fun r => String.eqb (rv_orderId r) orderId) reviews with
               | Some _ =>
                   reply (respond corsHeaders 400
                            (ErrorBody "Review already exists for this order"))
               | None =>
                   let reviews := (reviews ++ [review])%list in
                   let* _ := writeReviews (write_result env 0) reviews in
                   let* _ :=
                     match get orders orderId with
                     | Some found =>
                         writeOrders (write_result env 1)
                           (assign orders orderId found
                              (fun o =>
                                 let o := set_hasReview (Some true) o in
                                 set_reviewId (Some (rv_id review)) o))
                     | None => ret tt
                     end in
                   ret (respond corsHeaders 200
                          (ReviewOk (rv_id review)
                             "Review submitted successfully" review))
               end
         end)
      (fun message =>
         respond corsHeaders 500
           (FailureBody "Failed to submit review" message)).

End SubmitReview.

(** ** Observations on requests and worlds *)

(** A POST request whose body decodes to [payload]. *)
Definition post {P : Type} (payload : P) : Event P :=
  {| httpMethod := "POST"; body := BodyJson payload |}.

(** The payload of an event: its decoded body, without fields when there
    is none. *)
Definition payload_of (event : Event WebhookPayload) : WebhookPayload :=
  match body event with
  | BodyJson payload => payload
  | _ => Webhook.no_fields
  end.

(** The order reference an event carries. *)
Definition order_reference (event : Event WebhookPayload) : string :=
  Webhook.orderNumber (payload_of event).

(** [t] is the delivery date of the event or, when that is missing or
    empty, the clock reading taken for [deliveredAt]. *)
Definition delivery_stamp (d : WebhookPayload) (env : Env) (t : string) : Prop :=
  (Js.truthy (delivery_date d) = true /\ delivery_date d = Some t)
  \/ (Js.truthy (delivery_date d) = false /\ t = iso_now env 1).

(** The record the persisted Order Store holds under key [k]. *)
Definition order_at (w : World) (k : string) : option Order :=
  orders_file w ≫= lookup k.

(** [w] with another Order Store document. *)
Definition with_orders (orders : option (gmap string Order)) (w : World)
    : World :=
  {| orders_file := orders;
     reviews_file := reviews_file w;
     write_log := write_log w |}.

(** [t] is [s] without the white space at its two ends: what was cut
    off is white space, and [t] neither starts nor ends with a
    white-space code point. *)
Definition is_trim_of (s t : string) : Prop :=
  exists pre post,
    list_ascii_of_string s
    = (pre ++ list_ascii_of_string t ++ post)%list
    /\ Js.spaces pre
    /\ Js.spaces post
    /\ (forall e l, In e Js.white_space ->
                    list_ascii_of_string t <> (e ++ l)%list)
    /\ (forall e l, In e Js.white_space ->
                    list_ascii_of_string t <> (l ++ e)%list).

(** [chosen] is [a] when that is truthy, else [b] when that is truthy,
    else the fallback: [a || b || fallback]. *)
Definition first_truthy (a b : option string) (fallback : string)
    (chosen : option string) : Prop :=
  (Js.truthy a = true /\ chosen = a)
  \/ (Js.truthy a = false /\ Js.truthy b = true /\ chosen = b)
  \/ (Js.truthy a = false /\ Js.truthy b = false
      /\ chosen = Some fallback).

(** An order a review may be written for. *)
Definition eligible (order : Order) : Prop :=
  canReview order = Some true
  \/ exists s, status order = Some s /\ Js.toLowerCase s = "delivered".

(** The reviews the handler loads: none when the document is unreadable. *)
Definition stored_reviews (w : World) : list Review :=
  default [] (reviews_file w).

(** The reviews the persisted Review Store holds for order [k]. *)
Definition reviews_for (k : string) (reviews : list Review) : list Review :=
  List.filter (fun r => String.eqb (rv_orderId r) k) reviews.

(** At most one review per order identifier. *)
Definition one_review_per_order (f : option (list Review)) : Prop :=
  forall reviews, f = Some reviews ->
  forall k, (length (reviews_for k reviews) <= 1)%nat.

(** Worlds the handlers and the order-placement system can produce,
    starting without a Review Store document or with an empty one. *)
Inductive reachable : World -> Prop :=
| reachable_start (w : World) :
    reviews_file w = None \/ reviews_file w = Some [] -> reachable w
| reachable_review (event : Event ReviewRequest) (env : Env) (w : World) :
    reachable w -> reachable (snd (SubmitReview.handler event env w))
| reachable_webhook (event : Event WebhookPayload) (env : Env) (w : World) :
    reachable w -> reachable (snd (Webhook.handler event env w))
| reachable_orders (orders : option (gmap string Order)) (w : World) :
    reachable w -> reachable (with_orders orders w).

(** ** Sample data *)

Module Sample.

Definition env (w0 w1 : WriteResult) (t0 t1 : string) : Env :=
  {| iso_now := fun n => match n with O => t0 | _ => t1 end;
     date_now := 1705312800000%N;
     random36 := "0.8k3j2h1abc";
     write_result := fun n => match n with O => w0 | _ => w1 end |}.

Definition env_ok : Env :=
  env WriteOk WriteOk "2024-01-15T10:00:00.000Z" "2024-01-15T10:00:00.001Z".

Definition env_later : Env :=
  env WriteOk WriteOk "2024-01-16T08:30:00.000Z" "2024-01-16T08:30:00.002Z".

Definition env_readonly : Env :=
  env (WriteFault "EROFS: read-only file system" false) WriteOk
      "2024-01-15T10:00:00.000Z" "2024-01-15T10:00:00.001Z".

Definition order (st : string) (tus : option (list TrackingUpdate)) : Order :=
  {| status := Some st; lastUpdated := None; trackingUpdates := tus;
     deliveredAt := None; canReview := None; hasReview := None;
     reviewId := None; customerName := Some "Ann";
     items := Some [ {| item_name := Some "Mug" |} ];
     rest := [("total", "499")] |}.

Definition picked_up : TrackingUpdate :=
  {| tu_status := Some "picked_up"; tu_previousStatus := None;
     tu_updatedAt := Some "2024-01-12T09:00:00Z"; tu_deliveryDate := None;
     tu_remarks := None; tu_location := Some "Pune" |}.

Definition orders : gmap string Order :=
  {[ "ORD123" := order "shipped" (Some [picked_up]);
     "ORD456" := order "placed" None ]}.

Definition world : World :=
  {| orders_file := Some orders; reviews_file := None; write_log := [] |}.

Definition status_event (k st : string) (date : option string)
    : WebhookPayload :=
  {| awb_number := Some "AWB1"; order_number := Some k;
     current_status := Some st; previous_status := Some "shipped";
     updated_at := Some "2024-01-15T09:59:00Z"; delivery_date := date;
     remarks := None; location := None |}.

Definition review_request (k : string) (rating : Q) : ReviewRequest :=
  {| rq_orderId := Some k; rq_rating := Some rating;
     rq_comment := Some "  Great  "; rq_imageUrl := None;
     rq_customerName := None; rq_productName := None |}.

(** The world after order ORD123 was delivered. *)
Definition delivered_world : World :=
  snd (Webhook.handler
         (post (status_event "ORD123" "Delivered" (Some "2024-01-15")))
         env_ok world).

(** The world after ORD123 was delivered and reviewed. *)
Definition reviewed_world : World :=
  snd (SubmitReview.handler (post (review_request "ORD123" 5)) env_ok
         delivered_world).

(** The review that was stored for ORD123. *)
Definition first_review : Review :=
  SubmitReview.make_review (review_request "ORD123" 5)
    (Webhook.update_order
       (status_event "ORD123" "Delivered" (Some "2024-01-15")) env_ok
       (order "shipped" (Some [picked_up])))
    env_ok.

End Sample.

(** ** Further observations *)

Definition is_options {P : Type} (event : Event P) : bool :=
  String.eqb (httpMethod event) "OPTIONS".

Definition is_post {P : Type} (event : Event P) : bool :=
  String.eqb (httpMethod event) "POST".

(** The body is absent or is JSON text. *)
Definition parses {P : Type} (event : Event P) : bool :=
  match body event with
  | BodyMalformed _ => false
  | _ => true
  end.

(** The review request an event carries: its decoded body, without
    fields when there is none. *)
Definition request_of (event : Event ReviewRequest) : ReviewRequest :=
  match body event with
  | BodyJson payload => payload
  | _ => SubmitReview.no_fields
  end.

(** Both required fields of a webhook payload are non-empty. *)
Definition webhook_valid (d : WebhookPayload) : bool :=
  Js.truthy (order_number d) && Js.truthy (current_status d).

Definition order_present (w : World) (k : string) : bool :=
  match order_at w k with
  | Some _ => true
  | None => false
  end.

(** The Order Store document can be read. *)
Definition orders_readable (w : World) : bool :=
  match orders_file w with
  | Some _ => true
  | None => false
  end.

(** Order [k] is in the store and passes the eligibility test. *)
Definition order_reviewable (w : World) (k : string) : bool :=
  match order_at w k with
  | Some o => negb (SubmitReview.not_reviewable o)
  | None => false
  end.

(** The loaded Review Store holds a review of order [k]. *)
Definition reviewed (w : World) (k : string) : bool :=
  existsb (fun r => String.eqb (rv_orderId r) k) (stored_reviews w).

(** The [n]-th write of the invocation completes. *)
Definition write_ok (env : Env) (n : nat) : bool :=
  match write_result env n with
  | WriteOk => true
  | WriteFault _ _ => false
  end.

(** The tracking events of an order, none when the field is missing. *)
Definition tracking_of (o : Order) : list TrackingUpdate :=
  default [] (trackingUpdates o).

(** The writes an invocation attempted: what it added to the log. *)
Definition attempted (w w' : World) (l : list Path) : Prop :=
  write_log w' = (write_log w ++ l)%list.

(** [d] with another air waybill number. *)
Definition with_awb_number (awb : option string) (d : WebhookPayload)
    : WebhookPayload :=
  {| awb_number := awb; order_number := order_number d;
     current_status := current_status d;
     previous_status := previous_status d; updated_at := updated_at d;
     delivery_date := delivery_date d; remarks := remarks d;
     location := location d |}.


(** What every review written by the handler satisfies. *)
Definition stored_review_ok (r : Review) : Prop :=
  rv_verified r = true
  /\ (1 <= rv_rating r <= 5)%Q
  /\ rv_orderId r <> ""
  /\ Js.truthy (rv_customerName r) = true
  /\ Js.truthy (rv_productName r) = true
  /\ (rv_imageUrl r = None \/ Js.truthy (rv_imageUrl r) = true)
  /\ exists suffix, rv_id r = "REV" ++ suffix.

(** More sample data. *)
Module Cases.

(** The review document is written, the order document is not. *)
Definition env_orders_fault : Env :=
  Sample.env WriteOk (WriteFault "ENOSPC: no space left on device" false)
    "2024-01-17T12:00:00.000Z" "2024-01-17T12:00:00.001Z".

(** The review document cannot be written. *)
Definition env_reviews_fault : Env :=
  Sample.env (WriteFault "EACCES: permission denied" false) WriteOk
    "2024-01-17T12:00:00.000Z" "2024-01-17T12:00:00.001Z".

Definition malformed {P : Type} : Event P :=
  {| httpMethod := "POST";
     body := BodyMalformed "Unexpected token o in JSON at position 1" |}.


Definition in_transit : WebhookPayload :=
  Sample.status_event "ORD123" "in_transit" None.

Definition delivered : WebhookPayload :=
  Sample.status_event "ORD456" "Delivered" None.

(** An order that was delivered before the webhook was in use: its
    status says so, [canReview] was never set. *)
Definition delivered_elsewhere : World :=
  {| orders_file := Some {[ "ORD789" := Sample.order "Delivered" None ]};
     reviews_file := None;
     write_log := [] |}.

Definition returned : WebhookPayload :=
  Sample.status_event "ORD789" "returned" None.

(** An order reference that is no order of the store but the name of a
    member every object inherits. *)
Definition inherited_reference : WebhookPayload :=
  Sample.status_event "constructor" "shipped" None.

(** A review of the prototype itself. *)
Definition inherited_review : ReviewRequest :=
  Sample.review_request "__proto__" 5.

(** No order document can be read. *)
Definition unreadable : World :=
  {| orders_file := None; reviews_file := None; write_log := [] |}.

End Cases.

(** ** Facts about the string primitives *)

Lemma truthy_some (x : option string) :
  Js.truthy x = true -> exists s, x = Some s /\ s <> "".
Proof.
  destruct x as [[|c s]|]; simpl; try discriminate.
  intros _. exists (String c s). split; [reflexivity | discriminate].
Qed.

Lemma truthy_default (x : option string) :
  Js.truthy x = true -> x = Some (default "" x).
Proof.
  intros H. destruct (truthy_some x H) as (s & -> & _). reflexivity.
Qed.

(** ** The paths of the webhook handler *)

Ltac run_handler :=
  unfold run, bind, catch, JSON_parse, ret, reply, throw,
         readOrders, readReviews, writeOrders, writeReviews,
         get, assign, as_order; simpl.

Lemma webhook_persists (d : WebhookPayload) (env : Env) (w : World)
    (orders : gmap string Order) (order : Order) :
  Js.truthy (order_number d) = true ->
  Js.truthy (current_status d) = true ->
  orders_file w = Some orders ->
  orders !! Webhook.orderNumber d = Some order ->
  write_result env 0 = WriteOk ->
  Webhook.handler (post d) env w =
    (respond Webhook.corsHeaders 200
       (WebhookOk "Order status updated successfully" (Webhook.orderNumber d)
          (default "" (current_status d))),
     {| orders_file :=
          Some (<[Webhook.orderNumber d := Webhook.update_order d env order]> orders);
        reviews_file := reviews_file w;
        write_log := (write_log w ++ [OrdersPath])%list |}).
Proof.
  intros Hn Hs Hf Ho Hw. unfold Webhook.handler, post. simpl.
  run_handler. rewrite Hn, Hs. simpl. rewrite Hf. simpl.
  rewrite Ho. simpl. rewrite Hw. reflexivity.
Qed.

Lemma webhook_write_fault (d : WebhookPayload) (env : Env) (w : World)
    (orders : gmap string Order) (order : Order) (message : string)
    (clobbered : bool) :
  Js.truthy (order_number d) = true ->
  Js.truthy (current_status d) = true ->
  orders_file w = Some orders ->
  orders !! Webhook.orderNumber d = Some order ->
  write_result env 0 = WriteFault message clobbered ->
  Webhook.handler (post d) env w =
    (respond Webhook.corsHeaders 500
       (FailureBody "Failed to process webhook" message),
     {| orders_file := if clobbered then None else Some orders;
        reviews_file := reviews_file w;
        write_log := (write_log w ++ [OrdersPath])%list |}).
Proof.
  intros Hn Hs Hf Ho Hw. unfold Webhook.handler, post. simpl.
  run_handler. rewrite Hn, Hs. simpl. rewrite Hf. simpl.
  rewrite Ho. simpl. rewrite Hw, Hf. reflexivity.
Qed.

(** An order reference that is no key of the store but the name of an
    inherited member: the built-in object is updated, the document is
    written back as it was, and the answer is 200. *)
Lemma webhook_builtin (d : WebhookPayload) (env : Env) (w : World)
    (orders : gmap string Order) :
  Js.truthy (order_number d) = true ->
  Js.truthy (current_status d) = true ->
  orders_file w = Some orders ->
  orders !! Webhook.orderNumber d = None ->
  Js.inherited (Webhook.orderNumber d) = true ->
  Webhook.handler (post d) env w =
    match write_result env 0 with
    | WriteOk =>
        (respond Webhook.corsHeaders 200
           (WebhookOk "Order status updated successfully"
              (Webhook.orderNumber d) (default "" (current_status d))),
         {| orders_file := Some orders;
            reviews_file := reviews_file w;
            write_log := (write_log w ++ [OrdersPath])%list |})
    | WriteFault message clobbered =>
        (respond Webhook.corsHeaders 500
           (FailureBody "Failed to process webhook" message),
         {| orders_file := if clobbered then None else Some orders;
            reviews_file := reviews_file w;
            write_log := (write_log w ++ [OrdersPath])%list |})
    end.
Proof.
  intros Hn Hs Hf Ho Hi. unfold Webhook.handler, post. simpl.
  run_handler. rewrite Hn, Hs. simpl. rewrite Hf. simpl.
  rewrite Ho, Hi. simpl.
  destruct (write_result env 0); simpl; [reflexivity|].
  rewrite Hf. reflexivity.
Qed.

Lemma webhook_not_found (d : WebhookPayload) (env : Env) (w : World)
    (orders : gmap string Order) :
  Js.truthy (order_number d) = true ->
  Js.truthy (current_status d) = true ->
  orders_file w = Some orders ->
  orders !! Webhook.orderNumber d = None ->
  Js.inherited (Webhook.orderNumber d) = false ->
  Webhook.handler (post d) env w
  = (respond Webhook.corsHeaders 404 (ErrorBody "Order not found"), w).
Proof.
  intros Hn Hs Hf Ho Hi. unfold Webhook.handler, post. simpl.
  run_handler. rewrite Hn, Hs. simpl. rewrite Hf. simpl.
  rewrite Ho, Hi. reflexivity.
Qed.

Lemma update_order_trackingUpdates (d : WebhookPayload) (env : Env)
    (order : Order) :
  trackingUpdates (Webhook.update_order d env order) =
    Some (default [] (trackingUpdates order) ++ [Webhook.tracking_entry d])%list.
Proof.
  unfold Webhook.update_order. destruct (Webhook.is_delivered d); reflexivity.
Qed.

Lemma update_order_delivered (d : WebhookPayload) (env : Env) (order : Order) :
  Webhook.is_delivered d = true ->
  deliveredAt (Webhook.update_order d env order)
    = Js.or (delivery_date d) (Some (iso_now env 1))
  /\ canReview (Webhook.update_order d env order) = Some true.
Proof.
  intros Hd. unfold Webhook.update_order. rewrite Hd. split; reflexivity.
Qed.

Lemma order_at_insert (w : World) (orders : gmap string Order) (k : string)
    (o : Order) :
  orders_file w = Some (<[k := o]> orders) -> order_at w k = Some o.
Proof.
  intros H. unfold order_at. rewrite H. simpl. apply lookup_insert_eq.
Qed.

(** ** Tracking updates (C1, C10) *)

(** C1, as stated, fails: a valid event naming an order of a readable
    Order Store is not processed successfully when the write of the
    store faults (here: a read-only filesystem); the response is 500 and
    the persisted [trackingUpdates] of the order keeps its length. *)
Lemma webhook_valid_event_write_fault :
  let d := Sample.status_event "ORD123" "in_transit" None in
  let result := Webhook.handler (post d) Sample.env_readonly Sample.world in
  Js.truthy (order_number d) = true
  /\ Js.truthy (current_status d) = true
  /\ (exists o, order_at Sample.world (Webhook.orderNumber d) = Some o
                /\ trackingUpdates o = Some [Sample.picked_up])
  /\ statusCode (fst result) = 500
  /\ (exists o, order_at (snd result) (Webhook.orderNumber d) = Some o
                /\ trackingUpdates o = Some [Sample.picked_up]).
Proof.
  vm_compute. repeat split; eexists; split; reflexivity.
Qed.

(** C1 (amended): for every webhook event with a non-empty order
    reference and a non-empty new status whose reference names an order
    present in a readable Order Store, if the write of the store
    completes, processing succeeds (200) and the persisted order's
    [trackingUpdates] is the previous sequence (empty when the field was
    missing) followed by the entry built from the event: its length is
    one more than before and every earlier entry keeps its value and
    position. *)
Theorem webhook_appends_tracking_update (d : WebhookPayload) (env : Env)
    (w : World) (orders : gmap string Order) (order : Order) :
  Js.truthy (order_number d) = true ->
  Js.truthy (current_status d) = true ->
  orders_file w = Some orders ->
  orders !! Webhook.orderNumber d = Some order ->
  write_result env 0 = WriteOk ->
  let before := default [] (trackingUpdates order) in
  exists order' after,
    statusCode (fst (Webhook.handler (post d) env w)) = 200
    /\ order_at (snd (Webhook.handler (post d) env w)) (Webhook.orderNumber d)
       = Some order'
    /\ trackingUpdates order' = Some after
    /\ after = (before ++ [Webhook.tracking_entry d])%list
    /\ length after = S (length before)
    /\ (forall i e, before !! i = Some e -> after !! i = Some e).
Proof.
  intros Hn Hs Hf Ho Hw before.
  exists (Webhook.update_order d env order),
         (before ++ [Webhook.tracking_entry d])%list.
  rewrite (webhook_persists d env w orders order Hn Hs Hf Ho Hw). simpl.
  split; [reflexivity|].
  split; [by eapply order_at_insert|].
  split; [apply update_order_trackingUpdates|].
  split; [reflexivity|].
  split.
  - rewrite length_app. simpl. lia.
  - intros i e Hi. by apply lookup_app_l_Some.
Qed.

Lemma webhook_appends_tracking_update_witness :
  exists order' after,
    statusCode (fst (Webhook.handler
                       (post (Sample.status_event "ORD123" "in_transit" None))
                       Sample.env_ok Sample.world)) = 200
    /\ order_at (snd (Webhook.handler
                        (post (Sample.status_event "ORD123" "in_transit" None))
                        Sample.env_ok Sample.world)) "ORD123"
       = Some order'
    /\ trackingUpdates order' = Some after
    /\ after = [Sample.picked_up;
                Webhook.tracking_entry
                  (Sample.status_event "ORD123" "in_transit" None)]
    /\ length after = 2%nat
    /\ (forall i e, [Sample.picked_up] !! i = Some e -> after !! i = Some e).
Proof.
  apply (webhook_appends_tracking_update
           (Sample.status_event "ORD123" "in_transit" None)
           Sample.env_ok Sample.world Sample.orders
           (Sample.order "shipped" (Some [Sample.picked_up])));
    vm_compute; reflexivity.
Defined.

(** C10, as stated, fails for the same reason as C1: when the write of
    the store faults the handler does fail (500), and the persisted
    order still has no [trackingUpdates] field. *)
Lemma webhook_untracked_order_write_fault :
  let d := Sample.status_event "ORD456" "shipped" None in
  let result := Webhook.handler (post d) Sample.env_readonly Sample.world in
  (exists o, order_at Sample.world (Webhook.orderNumber d) = Some o
             /\ trackingUpdates o = None)
  /\ statusCode (fst result) = 500
  /\ (exists o, order_at (snd result) (Webhook.orderNumber d) = Some o
                /\ trackingUpdates o = None).
Proof.
  vm_compute. repeat split; eexists; split; reflexivity.
Qed.

(** C10 (amended): for every webhook event with a non-empty order
    reference and new status that names an existing order whose record
    has no [trackingUpdates] field, the missing field raises no fault:
    the handler starts from the empty sequence, so that, when the write
    of the store completes, the response is 200 and the persisted order
    has a [trackingUpdates] of length exactly one, the new entry; the
    only failure left is a fault of the write itself, reported as 500
    with that fault's message. *)
Theorem webhook_initialises_tracking_updates (d : WebhookPayload) (env : Env)
    (w : World) (orders : gmap string Order) (order : Order) :
  Js.truthy (order_number d) = true ->
  Js.truthy (current_status d) = true ->
  orders_file w = Some orders ->
  orders !! Webhook.orderNumber d = Some order ->
  trackingUpdates order = None ->
  (write_result env 0 = WriteOk ->
     exists order',
       statusCode (fst (Webhook.handler (post d) env w)) = 200
       /\ order_at (snd (Webhook.handler (post d) env w)) (Webhook.orderNumber d)
          = Some order'
       /\ trackingUpdates order' = Some [Webhook.tracking_entry d]
       /\ length (default [] (trackingUpdates order')) = 1%nat)
  /\ (forall message clobbered,
        write_result env 0 = WriteFault message clobbered ->
        fst (Webhook.handler (post d) env w)
        = respond Webhook.corsHeaders 500
            (FailureBody "Failed to process webhook" message)).
Proof.
  intros Hn Hs Hf Ho Hnone. split.
  - intros Hw. exists (Webhook.update_order d env order).
    rewrite (webhook_persists d env w orders order Hn Hs Hf Ho Hw). simpl.
    rewrite update_order_trackingUpdates, Hnone. simpl.
    split; [reflexivity|]. split; [by eapply order_at_insert|].
    split; reflexivity.
  - intros message clobbered Hw.
    by rewrite (webhook_write_fault d env w orders order message clobbered).
Qed.

Lemma webhook_initialises_tracking_updates_witness :
  let d := Sample.status_event "ORD456" "shipped" None in
  exists order',
    statusCode (fst (Webhook.handler (post d) Sample.env_ok Sample.world)) = 200
    /\ order_at (snd (Webhook.handler (post d) Sample.env_ok Sample.world))
         "ORD456" = Some order'
    /\ trackingUpdates order' = Some [Webhook.tracking_entry d]
    /\ length (default [] (trackingUpdates order')) = 1%nat.
Proof.
  destruct (webhook_initialises_tracking_updates
              (Sample.status_event "ORD456" "shipped" None)
              Sample.env_ok Sample.world Sample.orders
              (Sample.order "placed" None)) as [Hok _];
    [vm_compute; reflexivity ..|].
  apply Hok. reflexivity.
Defined.

(** ** Delivery (C4) *)

(** C4, as stated, fails: of two "delivered" events applied in sequence
    to the same order, the second overwrites [deliveredAt] with its own
    delivery date, which may be the earlier one. *)
Lemma webhook_second_delivery_date_earlier :
  let d1 := Sample.status_event "ORD123" "Delivered" (Some "2024-01-15") in
  let d2 := Sample.status_event "ORD123" "DELIVERED" (Some "2024-01-10") in
  let w1 := snd (Webhook.handler (post d1) Sample.env_ok Sample.world) in
  let w2 := snd (Webhook.handler (post d2) Sample.env_later w1) in
  Webhook.is_delivered d1 = true /\ Webhook.is_delivered d2 = true
  /\ (order_at w1 "ORD123" ≫= deliveredAt) = Some "2024-01-15"
  /\ (order_at w2 "ORD123" ≫= deliveredAt) = Some "2024-01-10"
  /\ (order_at w2 "ORD123" ≫= canReview) = Some true
  /\ ~ String.le "2024-01-15" "2024-01-10".
Proof.
  vm_compute. repeat split; auto.
Qed.

(** C4 (amended): for every webhook event whose new status is
    "delivered" up to letter case, processing an existing order (the
    store being readable and its write completing) persists
    [deliveredAt] as the event's delivery date or, when that is missing
    or empty, the current time, and [canReview] as true.  Applying two
    such events in sequence to the same order leaves [canReview] true
    after each, and [deliveredAt] is the second event's delivery date
    or clock reading: it does not decrease when the two events carry the
    same delivery date (in particular for one event applied twice) and
    the clock does not run backwards. *)
Theorem webhook_delivered_twice (d1 d2 : WebhookPayload) (env1 env2 : Env)
    (w : World) (orders : gmap string Order) (order : Order) :
  Js.truthy (order_number d1) = true ->
  order_number d2 = order_number d1 ->
  Webhook.is_delivered d1 = true ->
  Webhook.is_delivered d2 = true ->
  orders_file w = Some orders ->
  orders !! Webhook.orderNumber d1 = Some order ->
  write_result env1 0 = WriteOk ->
  write_result env2 0 = WriteOk ->
  let k := Webhook.orderNumber d1 in
  let w1 := snd (Webhook.handler (post d1) env1 w) in
  let w2 := snd (Webhook.handler (post d2) env2 w1) in
  exists o1 o2 t1 t2,
    order_at w1 k = Some o1 /\ order_at w2 k = Some o2
    /\ canReview o1 = Some true /\ canReview o2 = Some true
    /\ deliveredAt o1 = Some t1 /\ deliveredAt o2 = Some t2
    /\ delivery_stamp d1 env1 t1
    /\ delivery_stamp d2 env2 t2
    /\ (delivery_date d2 = delivery_date d1 ->
        String.le (iso_now env1 1) (iso_now env2 1) ->
        String.le t1 t2).
Proof.
  intros Hn Hk Hd1 Hd2 Hf Ho Hw1 Hw2 k w1 w2.
  assert (Hs : forall d, Webhook.is_delivered d = true ->
                         Js.truthy (current_status d) = true).
  { intros d. unfold Webhook.is_delivered.
    destruct (current_status d) as [[|c s]|]; simpl; auto; discriminate. }
  assert (Hst : forall d env, exists t,
             Js.or (delivery_date d) (Some (iso_now env 1)) = Some t
             /\ delivery_stamp d env t).
  { intros d env. unfold Js.or, delivery_stamp.
    destruct (delivery_date d) as [[|c s]|]; simpl; eauto. }
  assert (Hk2 : Webhook.orderNumber d2 = k).
  { unfold k, Webhook.orderNumber. by rewrite Hk. }
  pose proof (webhook_persists d1 env1 w orders order Hn (Hs d1 Hd1) Hf Ho Hw1)
    as E1.
  assert (Hf1 : orders_file w1
                = Some (<[k := Webhook.update_order d1 env1 order]> orders)).
  { unfold w1. by rewrite E1. }
  assert (Ho1 : (<[k := Webhook.update_order d1 env1 order]> orders)
                  !! Webhook.orderNumber d2
                = Some (Webhook.update_order d1 env1 order)).
  { rewrite Hk2. apply lookup_insert_eq. }
  assert (Hn2 : Js.truthy (order_number d2) = true) by by rewrite Hk.
  pose proof (webhook_persists d2 env2 w1 _ _ Hn2 (Hs d2 Hd2) Hf1 Ho1 Hw2)
    as E2.
  assert (Hf2 : order_at w2 k
                = Some (Webhook.update_order d2 env2
                          (Webhook.update_order d1 env1 order))).
  { unfold w2. rewrite E2. simpl. unfold order_at. simpl.
    rewrite Hk2. apply lookup_insert_eq. }
  destruct (update_order_delivered d1 env1 order Hd1) as [Ha1 Hc1].
  destruct (update_order_delivered d2 env2
              (Webhook.update_order d1 env1 order) Hd2) as [Ha2 Hc2].
  destruct (Hst d1 env1) as (t1 & Ht1 & Hst1).
  destruct (Hst d2 env2) as (t2 & Ht2 & Hst2).
  exists (Webhook.update_order d1 env1 order),
         (Webhook.update_order d2 env2 (Webhook.update_order d1 env1 order)),
         t1, t2.
  split; [by eapply order_at_insert|]. split; [exact Hf2|].
  split; [exact Hc1|]. split; [exact Hc2|].
  split; [by rewrite Ha1|]. split; [by rewrite Ha2|].
  split; [exact Hst1|]. split; [exact Hst2|].
  intros Hsame Hclock.
  destruct Hst1 as [[Htr1 Hdate1]|[Htr1 ->]];
    destruct Hst2 as [[Htr2 Hdate2]|[Htr2 ->]];
    rewrite Hsame in *; try congruence.
  assert (t1 = t2) as -> by congruence. reflexivity.
Qed.

Lemma webhook_delivered_twice_witness :
  let d := Sample.status_event "ORD123" "Delivered" None in
  let w1 := snd (Webhook.handler (post d) Sample.env_ok Sample.world) in
  let w2 := snd (Webhook.handler (post d) Sample.env_later w1) in
  exists o1 o2 t1 t2,
    order_at w1 "ORD123" = Some o1 /\ order_at w2 "ORD123" = Some o2
    /\ canReview o1 = Some true /\ canReview o2 = Some true
    /\ deliveredAt o1 = Some t1 /\ deliveredAt o2 = Some t2
    /\ delivery_stamp d Sample.env_ok t1
    /\ delivery_stamp d Sample.env_later t2
    /\ (delivery_date d = delivery_date d ->
        String.le "2024-01-15T10:00:00.001Z" "2024-01-16T08:30:00.002Z" ->
        String.le t1 t2).
Proof.
  apply (webhook_delivered_twice
           (Sample.status_event "ORD123" "Delivered" None)
           (Sample.status_event "ORD123" "Delivered" None)
           Sample.env_ok Sample.env_later Sample.world Sample.orders
           (Sample.order "shipped" (Some [Sample.picked_up])));
    vm_compute; reflexivity.
Defined.

(** ** Frame of the webhook handler (C8) *)

(** Every invocation of the webhook handler either leaves the world as
    it was and answers 200 (pre-flight), 400, 404, 405 or 500 (body not
    parsed), or reaches the single write of the Order Store, for an
    order of the store or for an inherited member. *)
Lemma webhook_outcomes (event : Event WebhookPayload) (env : Env) (w : World) :
  (snd (Webhook.handler event env w) = w
   /\ (httpMethod event = "OPTIONS"
         /\ statusCode (fst (Webhook.handler event env w)) = 200
       \/ In (statusCode (fst (Webhook.handler event env w)))
             [400; 404; 405; 500]%nat))
  \/ (exists d orders order,
        event = post d
        /\ Js.truthy (order_number d) = true
        /\ Js.truthy (current_status d) = true
        /\ orders_file w = Some orders
        /\ orders !! Webhook.orderNumber d = Some order)
  \/ (exists d orders,
        event = post d
        /\ Js.truthy (order_number d) = true
        /\ Js.truthy (current_status d) = true
        /\ orders_file w = Some orders
        /\ orders !! Webhook.orderNumber d = None
        /\ Js.inherited (Webhook.orderNumber d) = true).
Proof.
  destruct event as [m b]. unfold Webhook.handler, post. simpl.
  destruct (String.eqb m "OPTIONS") eqn:Hopt.
  { apply String.eqb_eq in Hopt. left. simpl. auto. }
  destruct (String.eqb m "POST") eqn:Hpost; simpl.
  2: { left. simpl. auto 10. }
  apply String.eqb_eq in Hpost. subst m.
  destruct b as [|message|d]; run_handler.
  - left. simpl. auto 10.
  - left. simpl. auto 10.
  - destruct (Js.truthy (order_number d)) eqn:Hn; simpl.
    2: { left. simpl. auto 10. }
    destruct (Js.truthy (current_status d)) eqn:Hs; simpl.
    2: { left. simpl. auto 10. }
    destruct (orders_file w) as [orders|] eqn:Hf; simpl.
    2: { left. simpl. auto 10. }
    destruct (orders !! Webhook.orderNumber d) as [order|] eqn:Ho; simpl.
    { right; left. exists d, orders, order. auto. }
    destruct (Js.inherited (Webhook.orderNumber d)) eqn:Hi; simpl.
    2: { left. simpl. auto 10. }
    right; right. exists d, orders. auto 10.
Qed.

(** For every successful webhook invocation (response 200) the persisted
    Order Store maps every key other than the event's order reference to
    the record it held before, the Review Store is as it was, and the
    write log grows by exactly one write, of the Order Store (by none for
    a pre-flight request, which changes nothing).  The order written is
    the updated order of the store, unless the reference is no key of
    the store but the name of an inherited member: then the document is
    written back as it was. *)
Lemma webhook_frame (event : Event WebhookPayload) (env : Env) (w : World) :
  statusCode (fst (Webhook.handler event env w)) = 200 ->
  let w' := snd (Webhook.handler event env w) in
  (forall k, k <> order_reference event -> order_at w' k = order_at w k)
  /\ reviews_file w' = reviews_file w
  /\ (httpMethod event = "OPTIONS" /\ w' = w
      \/ httpMethod event = "POST"
         /\ write_log w' = (write_log w ++ [OrdersPath])%list
         /\ ((exists orders order,
                orders_file w = Some orders
                /\ orders !! order_reference event = Some order
                /\ orders_file w'
                   = Some (<[order_reference event :=
                               Webhook.update_order (payload_of event) env
                                 order]> orders))
             \/ (order_at w (order_reference event) = None
                 /\ Js.inherited (order_reference event) = true
                 /\ orders_file w' = orders_file w))).
Proof.
  intros H200 w'.
  destruct (webhook_outcomes event env w)
    as [[Hw [[Hopt _]|Herr]]
       |[(d & orders & order & -> & Hn & Hs & Hf & Ho)
        |(d & orders & -> & Hn & Hs & Hf & Ho & Hi)]].
  - fold w' in Hw. rewrite Hw. auto.
  - rewrite H200 in Herr. simpl in Herr.
    intuition discriminate.
  - destruct (write_result env 0) as [|message clobbered] eqn:Hw.
    + pose proof (webhook_persists d env w orders order Hn Hs Hf Ho Hw) as E.
      unfold w'. rewrite E. simpl.
      change (order_reference (post d)) with (Webhook.orderNumber d).
      change (payload_of (post d)) with d.
      split.
      { intros k Hk. unfold order_at. simpl. rewrite Hf. simpl.
        apply lookup_insert_ne. congruence. }
      split; [reflexivity|]. right.
      split; [reflexivity|]. split; [reflexivity|]. left. eauto.
    + rewrite (webhook_write_fault d env w orders order message clobbered
                 Hn Hs Hf Ho Hw) in H200.
      discriminate.
  - pose proof (webhook_builtin d env w orders Hn Hs Hf Ho Hi) as E.
    unfold w'. clear w'.
    destruct (write_result env 0) as [|message clobbered] eqn:Hw;
      rewrite E in *; [|discriminate H200].
    simpl.
    change (order_reference (post d)) with (Webhook.orderNumber d).
    split.
    { intros k Hk. unfold order_at. simpl. rewrite Hf. reflexivity. }
    split; [reflexivity|]. right.
    split; [reflexivity|]. split; [reflexivity|]. right.
    unfold order_at. rewrite Hf. simpl. auto.
Qed.


(** ** The paths of the review handler *)

Section ReviewPaths.

Variables (d : ReviewRequest) (env : Env) (w : World).

Let bad_request (message : string) : Response * World :=
  (respond SubmitReview.corsHeaders 400 (ErrorBody message), w).

Lemma review_missing_fields :
  SubmitReview.missing_fields d = true ->
  SubmitReview.handler (post d) env w
  = bad_request "Missing required fields: orderId, rating, comment".
Proof.
  intros H. unfold SubmitReview.handler, post. simpl. run_handler.
  rewrite H. reflexivity.
Qed.

Hypothesis fields_present : SubmitReview.missing_fields d = false.

Lemma review_out_of_range :
  SubmitReview.out_of_range d = true ->
  SubmitReview.handler (post d) env w
  = bad_request "Rating must be between 1 and 5".
Proof.
  intros H. unfold SubmitReview.handler, post. simpl. run_handler.
  rewrite fields_present, H. reflexivity.
Qed.

Hypothesis in_range : SubmitReview.out_of_range d = false.

Lemma review_order_not_found :
  order_at w (SubmitReview.orderId d) = None ->
  Js.inherited (SubmitReview.orderId d) = false ->
  SubmitReview.handler (post d) env w
  = (respond SubmitReview.corsHeaders 404 (ErrorBody "Order not found"), w).
Proof.
  intros H Hi. unfold SubmitReview.handler, post. simpl. run_handler.
  rewrite fields_present, in_range. simpl.
  unfold order_at in H.
  destruct (orders_file w) as [orders|]; simpl in *.
  - rewrite H, Hi. reflexivity.
  - rewrite lookup_empty, Hi. reflexivity.
Qed.

(** An order reference that is no key of the store but the name of an
    inherited member passes the existence test; the built-in object has
    neither [canReview] nor [status]. *)
Lemma review_inherited_member :
  order_at w (SubmitReview.orderId d) = None ->
  Js.inherited (SubmitReview.orderId d) = true ->
  SubmitReview.handler (post d) env w
  = bad_request "Can only review delivered orders".
Proof.
  intros H Hi. unfold SubmitReview.handler, post. simpl. run_handler.
  rewrite fields_present, in_range. simpl.
  unfold order_at in H.
  destruct (orders_file w) as [orders|]; simpl in *.
  - rewrite H, Hi. reflexivity.
  - rewrite lookup_empty, Hi. reflexivity.
Qed.

Variables (orders : gmap string Order) (order : Order).
Hypothesis store_readable : orders_file w = Some orders.
Hypothesis order_present : orders !! SubmitReview.orderId d = Some order.

Lemma review_not_reviewable :
  SubmitReview.not_reviewable order = true ->
  SubmitReview.handler (post d) env w
  = bad_request "Can only review delivered orders".
Proof.
  intros H. unfold SubmitReview.handler, post. simpl. run_handler.
  rewrite fields_present, in_range. simpl. rewrite store_readable. simpl.
  rewrite order_present. simpl. rewrite H. reflexivity.
Qed.

Hypothesis reviewable : SubmitReview.not_reviewable order = false.

Let same_order (r : Review) : bool :=
  String.eqb (rv_orderId r) (SubmitReview.orderId d).

Lemma review_duplicate (existing : Review) :
  find same_order (stored_reviews w) = Some existing ->
  SubmitReview.handler (post d) env w
  = bad_request "Review already exists for this order".
Proof.
  intros H. unfold SubmitReview.handler, post. simpl. run_handler.
  rewrite fields_present, in_range. simpl. rewrite store_readable. simpl.
  rewrite order_present. simpl. rewrite reviewable. simpl.
  unfold stored_reviews, same_order in H.
  destruct (reviews_file w) as [reviews|]; simpl in *.
  - rewrite H. reflexivity.
  - discriminate.
Qed.

Hypothesis first_review : find same_order (stored_reviews w) = None.

Let review : Review := SubmitReview.make_review d order env.

Let reviewed_order : Order :=
  set_reviewId (Some (rv_id review)) (set_hasReview (Some true) order).

Lemma review_accepted :
  write_result env 0 = WriteOk ->
  write_result env 1 = WriteOk ->
  SubmitReview.handler (post d) env w
  = (respond SubmitReview.corsHeaders 200
       (ReviewOk (rv_id review) "Review submitted successfully" review),
     {| orders_file :=
          Some (<[SubmitReview.orderId d := reviewed_order]> orders);
        reviews_file := Some (stored_reviews w ++ [review])%list;
        write_log := (write_log w ++ [ReviewsPath] ++ [OrdersPath])%list |}).
Proof.
  intros H0 H1. unfold SubmitReview.handler, post. simpl. run_handler.
  rewrite fields_present, in_range. simpl. rewrite store_readable. simpl.
  rewrite order_present. simpl. rewrite reviewable. simpl.
  unfold stored_reviews, same_order in *.
  destruct (reviews_file w) as [reviews|]; simpl in *.
  - rewrite first_review. simpl. rewrite H0. simpl. rewrite H1. simpl.
    rewrite <- app_assoc. reflexivity.
  - rewrite H0. simpl. rewrite H1. simpl.
    rewrite <- app_assoc. reflexivity.
Qed.

Lemma review_first_write_fault (message : string) (clobbered : bool) :
  write_result env 0 = WriteFault message clobbered ->
  SubmitReview.handler (post d) env w
  = (respond SubmitReview.corsHeaders 500
       (FailureBody "Failed to submit review" message),
     {| orders_file := orders_file w;
        reviews_file := if clobbered then None else reviews_file w;
        write_log := (write_log w ++ [ReviewsPath])%list |}).
Proof.
  intros H0. unfold SubmitReview.handler, post. simpl. run_handler.
  rewrite fields_present, in_range. simpl. rewrite store_readable. simpl.
  rewrite order_present. simpl. rewrite reviewable. simpl.
  unfold stored_reviews, same_order in *.
  destruct (reviews_file w) as [reviews|] eqn:Hr; simpl in *.
  - rewrite first_review. simpl. rewrite H0. simpl.
    rewrite store_readable, Hr. reflexivity.
  - rewrite H0. simpl. rewrite store_readable, Hr. reflexivity.
Qed.

Lemma review_second_write_fault (message : string) (clobbered : bool) :
  write_result env 0 = WriteOk ->
  write_result env 1 = WriteFault message clobbered ->
  SubmitReview.handler (post d) env w
  = (respond SubmitReview.corsHeaders 500
       (FailureBody "Failed to submit review" message),
     {| orders_file := if clobbered then None else orders_file w;
        reviews_file := Some (stored_reviews w ++ [review])%list;
        write_log := (write_log w ++ [ReviewsPath] ++ [OrdersPath])%list |}).
Proof.
  intros H0 H1. unfold SubmitReview.handler, post. simpl. run_handler.
  rewrite fields_present, in_range. simpl. rewrite store_readable. simpl.
  rewrite order_present. simpl. rewrite reviewable. simpl.
  unfold stored_reviews, same_order in *.
  destruct (reviews_file w) as [reviews|]; simpl in *.
  - rewrite first_review. simpl. rewrite H0. simpl. rewrite H1. simpl.
    rewrite <- app_assoc, store_readable. reflexivity.
  - rewrite H0. simpl. rewrite H1. simpl.
    rewrite <- app_assoc, store_readable. reflexivity.
Qed.

End ReviewPaths.

(** ** Trimming *)

(** The bytes of the white-space code points. *)
Lemma white_space_bytes :
  Js.white_space
  = map (map ascii_of_nat)
      [ [9]; [10]; [11]; [12]; [13]; [32];
        [194; 160];
        [225; 154; 128];
        [226; 128; 128]; [226; 128; 129]; [226; 128; 130]; [226; 128; 131];
        [226; 128; 132]; [226; 128; 133]; [226; 128; 134]; [226; 128; 135];
        [226; 128; 136]; [226; 128; 137]; [226; 128; 138];
        [226; 128; 168]; [226; 128; 169];
        [226; 128; 175];
        [226; 129; 159];
        [227; 128; 128];
        [239; 187; 191] ]%nat.
Proof. vm_compute. reflexivity. Qed.

Lemma strip_prefix_some (p l rest : list ascii) :
  Js.strip_prefix p l = Some rest -> l = (p ++ rest)%list.
Proof.
  revert l. induction p as [|a p IH]; intros [|b l]; simpl; intros H;
    try congruence.
  destruct (Ascii.eqb_spec a b) as [->|]; [|discriminate].
  f_equal. by apply IH.
Qed.

Lemma strip_prefix_app (p rest : list ascii) :
  Js.strip_prefix p (p ++ rest)%list = Some rest.
Proof.
  induction p as [|a p IH]; simpl; [reflexivity|].
  by rewrite Ascii.eqb_refl.
Qed.

Lemma strip_any_some (table : list (list ascii)) (l rest : list ascii) :
  Js.strip_any table l = Some rest ->
  exists e, In e table /\ l = (e ++ rest)%list.
Proof.
  induction table as [|e table IH]; simpl; [discriminate|].
  destruct (Js.strip_prefix e l) as [rest'|] eqn:He.
  - intros [= <-]. exists e. split; [by left|].
    by apply strip_prefix_some.
  - intros H. destruct (IH H) as (e' & Hin & Hl). exists e'. auto.
Qed.

Lemma strip_any_none (table : list (list ascii)) (l : list ascii) :
  Js.strip_any table l = None ->
  forall e l', In e table -> l <> (e ++ l')%list.
Proof.
  induction table as [|e0 table IH]; simpl; intros H e l' Hin; [done|].
  destruct (Js.strip_prefix e0 l) as [rest|] eqn:He; [discriminate|].
  destruct Hin as [<-|Hin].
  - intros ->. rewrite strip_prefix_app in He. discriminate.
  - by apply IH.
Qed.

Lemma strip_any_nil (table : list (list ascii)) :
  (forall e, In e table -> e <> []) -> Js.strip_any table [] = None.
Proof.
  intros Hne. destruct (Js.strip_any table []) as [rest|] eqn:H; [|done].
  apply strip_any_some in H as (e & Hin & Hl).
  symmetry in Hl. apply app_eq_nil in Hl as [-> _].
  by destruct (Hne [] Hin).
Qed.

Lemma drop_spaces_spec (table : list (list ascii)) :
  (forall e, In e table -> e <> []) ->
  forall (fuel : nat) (l : list ascii),
    length l <= fuel ->
    exists pre,
      l = (pre ++ Js.drop_spaces table fuel l)%list
      /\ Js.spaces_of table pre
      /\ Js.strip_any table (Js.drop_spaces table fuel l) = None.
Proof.
  intros Hne. induction fuel as [|fuel IH]; intros l Hlen; simpl.
  - destruct l; [|simpl in Hlen; lia].
    exists []. split; [done|]. split; [constructor|].
    by apply strip_any_nil.
  - destruct (Js.strip_any table l) as [rest|] eqn:Hs.
    + destruct (strip_any_some _ _ _ Hs) as (e & Hin & ->).
      assert (length e <> 0).
      { specialize (Hne e Hin). destruct e; [done|simpl; lia]. }
      destruct (IH rest) as (pre & Hrest & Hpre & Hend).
      { rewrite length_app in Hlen. lia. }
      exists (e ++ pre)%list. split; [|split].
      * rewrite <- app_assoc. by rewrite <- Hrest.
      * by constructor.
      * exact Hend.
    + exists []. split; [done|]. split; [constructor|exact Hs].
Qed.

Lemma spaces_of_app (table : list (list ascii)) (a b : list ascii) :
  Js.spaces_of table a -> Js.spaces_of table b -> Js.spaces_of table (a ++ b).
Proof.
  induction 1 as [|e l Hin Hl IH]; intros Hb; simpl; [done|].
  rewrite <- app_assoc. constructor; auto.
Qed.

Lemma spaces_of_rev (table : list (list ascii)) (l : list ascii) :
  Js.spaces_of (map (@rev ascii) table) l -> Js.spaces_of table (rev l).
Proof.
  induction 1 as [|e l Hin Hl IH]; simpl; [constructor|].
  apply in_map_iff in Hin as (e0 & <- & Hin).
  rewrite rev_app_distr, rev_involutive.
  apply spaces_of_app; [exact IH|].
  rewrite <- (app_nil_r e0). constructor; [done|constructor].
Qed.

Lemma white_space_nonempty (e : list ascii) : In e Js.white_space -> e <> [].
Proof.
  intros Hin ->. vm_compute in Hin.
  repeat (destruct Hin as [Hin|Hin]; [discriminate Hin|]). exact Hin.
Qed.

Lemma white_space_rev_nonempty (e : list ascii) :
  In e (map (@rev ascii) Js.white_space) -> e <> [].
Proof.
  intros Hin. apply in_map_iff in Hin as (e0 & <- & Hin).
  apply white_space_nonempty in Hin.
  destruct e0 as [|c e0]; [done|]. simpl. intros H.
  apply app_eq_nil in H as [_ H]. discriminate.
Qed.

Lemma trim_list_spec (l : list ascii) :
  exists pre post,
    l = (pre ++ Js.trim_list l ++ post)%list
    /\ Js.spaces pre
    /\ Js.spaces post
    /\ (forall e l', In e Js.white_space -> Js.trim_list l <> (e ++ l')%list)
    /\ (forall e l', In e Js.white_space -> Js.trim_list l <> (l' ++ e)%list).
Proof.
  unfold Js.trim_list, Js.spaces. cbv zeta.
  destruct (drop_spaces_spec Js.white_space white_space_nonempty
              (length l) l) as (pre & Hl & Hpre & Hhd); [lia|].
  set (m := Js.drop_spaces Js.white_space (length l) l) in *.
  destruct (drop_spaces_spec (map (@rev ascii) Js.white_space)
              white_space_rev_nonempty (length m) (rev m))
    as (post & Hm & Hpost & Hlast); [rewrite length_rev; lia|].
  set (t := Js.drop_spaces (map (@rev ascii) Js.white_space) (length m)
              (rev m)) in *.
  assert (Hm' : m = (rev t ++ rev post)%list).
  { rewrite <- rev_app_distr, <- Hm. by rewrite rev_involutive. }
  exists pre, (rev post). split; [by rewrite <- Hm'|].
  split; [exact Hpre|]. split; [by apply spaces_of_rev|]. split.
  - intros e l' Hin Ht.
    apply (strip_any_none _ _ Hhd e (l' ++ rev post)%list Hin).
    rewrite Hm', Ht. by rewrite <- app_assoc.
  - intros e l' Hin Ht.
    apply (strip_any_none _ _ Hlast (rev e) (rev l')).
    + by apply in_map.
    + rewrite <- (rev_involutive t), Ht, rev_app_distr. reflexivity.
Qed.

Lemma trim_is_trim_of (s : string) : is_trim_of s (Js.trim s).
Proof.
  unfold is_trim_of, Js.trim.
  rewrite list_ascii_of_string_of_list_ascii.
  apply trim_list_spec.
Qed.

(** [order.items && order.items[0]?.name] is the name of the first item. *)
Lemma first_item_name_head (order : Order) :
  SubmitReview.first_item_name order
  = match items order with
    | Some (item :: _) => item_name item
    | _ => None
    end.
Proof.
  unfold SubmitReview.first_item_name.
  destruct (items order) as [[|item its]|]; reflexivity.
Qed.

Lemma or_first_truthy (a b : option string) (fallback : string) :
  first_truthy a b fallback (Js.or (Js.or a b) (Some fallback)).
Proof.
  unfold first_truthy, Js.or.
  destruct (Js.truthy a) eqn:Ha; [rewrite Ha; auto|].
  destruct (Js.truthy b) eqn:Hb; auto.
Qed.

(** ** Outcomes of the review handler *)

Lemma not_reviewable_iff (order : Order) :
  SubmitReview.not_reviewable order = false <-> eligible order.
Proof.
  unfold SubmitReview.not_reviewable, eligible.
  rewrite andb_false_iff, !negb_false_iff, !bool_decide_eq_true.
  split; (intros [H|H]; [by left | right]).
  - destruct (status order) as [s|]; simpl in H; [|discriminate].
    exists s. split; congruence.
  - destruct H as (s & -> & <-). reflexivity.
Qed.

(** Every invocation of the review handler either leaves the world as
    it was and answers 200 (pre-flight), 400, 404, 405 or 500 (body not
    parsed), or passes every check and reaches the writes. *)
Lemma review_outcomes (event : Event ReviewRequest) (env : Env) (w : World) :
  (snd (SubmitReview.handler event env w) = w
   /\ (httpMethod event = "OPTIONS"
         /\ statusCode (fst (SubmitReview.handler event env w)) = 200
       \/ In (statusCode (fst (SubmitReview.handler event env w)))
             [400; 404; 405; 500]%nat))
  \/ (exists d orders order,
        event = post d
        /\ SubmitReview.missing_fields d = false
        /\ SubmitReview.out_of_range d = false
        /\ orders_file w = Some orders
        /\ orders !! SubmitReview.orderId d = Some order
        /\ SubmitReview.not_reviewable order = false
        /\ find (fun r => String.eqb (rv_orderId r) (SubmitReview.orderId d))
                (stored_reviews w) = None).
Proof.
  destruct event as [m b].
  destruct (String.eqb m "OPTIONS") eqn:Hopt.
  { unfold SubmitReview.handler. simpl. rewrite Hopt.
    apply String.eqb_eq in Hopt. left. simpl. auto. }
  destruct (String.eqb m "POST") eqn:Hpost.
  2: { unfold SubmitReview.handler. simpl. rewrite Hopt, Hpost.
       left. simpl. auto 10. }
  apply String.eqb_eq in Hpost. subst m.
  destruct b as [|message|d].
  - left. unfold SubmitReview.handler. simpl. run_handler. auto 10.
  - left. unfold SubmitReview.handler. simpl. run_handler. auto 10.
  - fold (post d).
    destruct (SubmitReview.missing_fields d) eqn:Hm.
    { rewrite review_missing_fields by done. left. simpl. auto 10. }
    destruct (SubmitReview.out_of_range d) eqn:Hr.
    { rewrite review_out_of_range by done. left. simpl. auto 10. }
    destruct (order_at w (SubmitReview.orderId d)) as [order|] eqn:Ho.
    2: { destruct (Js.inherited (SubmitReview.orderId d)) eqn:Hi.
         - rewrite review_inherited_member by done. left. simpl. auto 10.
         - rewrite review_order_not_found by done. left. simpl. auto 10. }
    unfold order_at in Ho.
    destruct (orders_file w) as [orders|] eqn:Hf; [|discriminate].
    simpl in Ho.
    destruct (SubmitReview.not_reviewable order) eqn:Hn.
    { rewrite (review_not_reviewable d env w Hm Hr orders order) by done.
      left. simpl. auto 10. }
    destruct (find (fun r => String.eqb (rv_orderId r) (SubmitReview.orderId d))
                   (stored_reviews w)) as [existing|] eqn:Hfind.
    { rewrite (review_duplicate d env w Hm Hr orders order Hf Ho Hn existing)
        by done.
      left. simpl. auto 10. }
    right. exists d, orders, order. auto 10.
Qed.

(** A request that passed every check is answered 200 or 500. *)
Lemma review_write_path_status (d : ReviewRequest) (env : Env) (w : World)
    (orders : gmap string Order) (order : Order) :
  SubmitReview.missing_fields d = false ->
  SubmitReview.out_of_range d = false ->
  orders_file w = Some orders ->
  orders !! SubmitReview.orderId d = Some order ->
  SubmitReview.not_reviewable order = false ->
  find (fun r => String.eqb (rv_orderId r) (SubmitReview.orderId d))
       (stored_reviews w) = None ->
  (write_result env 0 = WriteOk /\ write_result env 1 = WriteOk
   /\ statusCode (fst (SubmitReview.handler (post d) env w)) = 200)
  \/ statusCode (fst (SubmitReview.handler (post d) env w)) = 500.
Proof.
  intros Hm Hr Hf Ho Hn Hfind.
  destruct (write_result env 0) as [|m0 c0] eqn:H0.
  - destruct (write_result env 1) as [|m1 c1] eqn:H1.
    + left. by rewrite (review_accepted d env w Hm Hr orders order).
    + right.
      by rewrite (review_second_write_fault d env w Hm Hr orders order
                    Hf Ho Hn Hfind m1 c1).
  - right.
    by rewrite (review_first_write_fault d env w Hm Hr orders order
                  Hf Ho Hn Hfind m0 c0).
Qed.

(** ** Error responses write nothing (C9) *)

(** C9: whenever either handler answers 400, 404 or 405, the world it
    leaves is the world it found: neither document is changed and no
    write was attempted. *)
Theorem error_responses_write_nothing (webhook_event : Event WebhookPayload)
    (review_event : Event ReviewRequest) (env : Env) (w : World) :
  (In (statusCode (fst (Webhook.handler webhook_event env w)))
      [400; 404; 405]%nat ->
   snd (Webhook.handler webhook_event env w) = w)
  /\ (In (statusCode (fst (SubmitReview.handler review_event env w)))
         [400; 404; 405]%nat ->
      snd (SubmitReview.handler review_event env w) = w).
Proof.
  split; intros Hcode.
  - destruct (webhook_outcomes webhook_event env w)
      as [[Hw _]
         |[(d & orders & order & -> & Hn & Hs & Hf & Ho)
          |(d & orders & -> & Hn & Hs & Hf & Ho & Hi)]]; [exact Hw| |].
    + exfalso. destruct (write_result env 0) as [|message clobbered] eqn:Hw.
      * rewrite (webhook_persists d env w orders order Hn Hs Hf Ho Hw)
          in Hcode.
        simpl in Hcode. intuition discriminate.
      * rewrite (webhook_write_fault d env w orders order message clobbered
                   Hn Hs Hf Ho Hw) in Hcode.
        simpl in Hcode. intuition discriminate.
    + exfalso. rewrite (webhook_builtin d env w orders Hn Hs Hf Ho Hi) in Hcode.
      destruct (write_result env 0); simpl in Hcode; intuition discriminate.
  - destruct (review_outcomes review_event env w)
      as [[Hw _]|(d & orders & order & -> & Hm & Hr & Hf & Ho & Hn & Hfind)];
      [exact Hw|].
    exfalso.
    destruct (review_write_path_status d env w orders order Hm Hr Hf Ho Hn Hfind)
      as [(_ & _ & E)|E]; rewrite E in Hcode; simpl in Hcode;
      intuition discriminate.
Qed.

Lemma error_responses_write_nothing_witness :
  snd (Webhook.handler (post (Sample.status_event "ORD999" "shipped" None))
         Sample.env_ok Sample.world) = Sample.world
  /\ snd (SubmitReview.handler (post (Sample.review_request "ORD123" 5))
            Sample.env_ok Sample.world) = Sample.world.
Proof.
  destruct (error_responses_write_nothing
              (post (Sample.status_event "ORD999" "shipped" None))
              (post (Sample.review_request "ORD123" 5))
              Sample.env_ok Sample.world) as [Hwebhook Hreview].
  split.
  - apply Hwebhook. vm_compute. auto.
  - apply Hreview. vm_compute. auto.
Defined.

(** ** Unreadable Order Store (C6) *)

(** When the Order Store cannot be read, the two handlers diverge.  The
    webhook handler answers a valid event at once with 404 "Orders file
    not found".  The review handler goes on as with an empty store:
    every request gets the response it gets with a readable empty
    store.  A request that passed the field and range checks then gets
    404 "Order not found" unless its order reference is the name of an
    inherited member, which an empty store has as well; such a request
    gets 400 "Can only review delivered orders". *)
Lemma unreadable_order_store (event : WebhookPayload) (request : ReviewRequest)
    (env : Env) (w : World) :
  orders_file w = None ->
  (Js.truthy (order_number event) = true ->
   Js.truthy (current_status event) = true ->
   Webhook.handler (post event) env w
   = (respond Webhook.corsHeaders 404 (ErrorBody "Orders file not found"), w))
  /\ fst (SubmitReview.handler (post request) env w)
     = fst (SubmitReview.handler (post request) env (with_orders (Some ∅) w))
  /\ (SubmitReview.missing_fields request = false ->
      SubmitReview.out_of_range request = false ->
      SubmitReview.handler (post request) env w
      = (respond SubmitReview.corsHeaders
           (if Js.inherited (SubmitReview.orderId request) then 400 else 404)
           (ErrorBody
              (if Js.inherited (SubmitReview.orderId request)
               then "Can only review delivered orders"
               else "Order not found")), w)).
Proof.
  intros Hf.
  assert (Hnone : order_at w (SubmitReview.orderId request) = None).
  { unfold order_at. by rewrite Hf. }
  assert (Hempty : order_at (with_orders (Some ∅) w)
                     (SubmitReview.orderId request) = None).
  { unfold order_at, with_orders. simpl. apply lookup_empty. }
  split; [|split].
  - intros Hn Hs.
    unfold Webhook.handler, post. simpl. run_handler.
    rewrite Hn, Hs. simpl. rewrite Hf. reflexivity.
  - destruct (SubmitReview.missing_fields request) eqn:Hm.
    { by rewrite !review_missing_fields. }
    destruct (SubmitReview.out_of_range request) eqn:Hr.
    { by rewrite !review_out_of_range. }
    destruct (Js.inherited (SubmitReview.orderId request)) eqn:Hi.
    + rewrite (review_inherited_member request env w Hm Hr Hnone Hi).
      by rewrite (review_inherited_member request env _ Hm Hr Hempty Hi).
    + rewrite (review_order_not_found request env w Hm Hr Hnone Hi).
      by rewrite (review_order_not_found request env _ Hm Hr Hempty Hi).
  - intros Hm Hr.
    destruct (Js.inherited (SubmitReview.orderId request)) eqn:Hi.
    + exact (review_inherited_member request env w Hm Hr Hnone Hi).
    + exact (review_order_not_found request env w Hm Hr Hnone Hi).
Qed.

(** C6: the claim fails for a review request whose order reference is
    the name of a member every object inherits.  With no readable Order
    Store the request for "__proto__", with its fields and a rating in
    range, passes the order-existence check and is answered 400 "Can
    only review delivered orders", not 404 "Order not found"; the
    webhook handler answers an event in the same world with 404 "Orders
    file not found". *)
Theorem unreadable_store_inherited_member :
  orders_file Cases.unreadable = None
  /\ SubmitReview.missing_fields Cases.inherited_review = false
  /\ SubmitReview.out_of_range Cases.inherited_review = false
  /\ SubmitReview.handler (post Cases.inherited_review) Sample.env_ok
       Cases.unreadable
     = (respond SubmitReview.corsHeaders 400
          (ErrorBody "Can only review delivered orders"), Cases.unreadable)
  /\ Webhook.handler (post Cases.inherited_reference) Sample.env_ok
       Cases.unreadable
     = (respond Webhook.corsHeaders 404 (ErrorBody "Orders file not found"),
        Cases.unreadable).
Proof.
  vm_compute. auto.
Qed.

(** The decision table of the review handler on a POST request whose
    body decodes: the first failing check decides the response. *)
Lemma review_decision (d : ReviewRequest) (env : Env) (w : World) :
  let r := fst (SubmitReview.handler (post d) env w) in
  let error code message := respond SubmitReview.corsHeaders code (ErrorBody message) in
  (SubmitReview.missing_fields d = true
   /\ r = error 400%nat "Missing required fields: orderId, rating, comment")
  \/ (SubmitReview.missing_fields d = false
      /\ SubmitReview.out_of_range d = true
      /\ r = error 400%nat "Rating must be between 1 and 5")
  \/ (SubmitReview.missing_fields d = false
      /\ SubmitReview.out_of_range d = false
      /\ order_at w (SubmitReview.orderId d) = None
      /\ (Js.inherited (SubmitReview.orderId d) = false
          /\ r = error 404%nat "Order not found"
          \/ Js.inherited (SubmitReview.orderId d) = true
             /\ r = error 400%nat "Can only review delivered orders"))
  \/ (exists order,
        SubmitReview.missing_fields d = false
        /\ SubmitReview.out_of_range d = false
        /\ order_at w (SubmitReview.orderId d) = Some order
        /\ (SubmitReview.not_reviewable order = true
            /\ r = error 400%nat "Can only review delivered orders"
            \/ SubmitReview.not_reviewable order = false
               /\ (r = error 400%nat "Review already exists for this order"
                   \/ (exists review,
                         r = respond SubmitReview.corsHeaders 200
                               (ReviewOk (rv_id review)
                                  "Review submitted successfully" review))
                   \/ (exists message,
                         r = respond SubmitReview.corsHeaders 500
                               (FailureBody "Failed to submit review" message))))).
Proof.
  intros r error. unfold r, error.
  destruct (SubmitReview.missing_fields d) eqn:Hm.
  { left. by rewrite review_missing_fields. }
  destruct (SubmitReview.out_of_range d) eqn:Hr.
  { right; left. by rewrite review_out_of_range. }
  destruct (order_at w (SubmitReview.orderId d)) as [order|] eqn:Ho.
  2: { right; right; left.
       destruct (Js.inherited (SubmitReview.orderId d)) eqn:Hi.
       - by rewrite review_inherited_member; auto 10.
       - by rewrite review_order_not_found; auto 10. }
  right; right; right. exists order.
  split; [reflexivity|]. split; [reflexivity|]. split; [reflexivity|].
  unfold order_at in Ho.
  destruct (orders_file w) as [orders|] eqn:Hf; [|discriminate]. simpl in Ho.
  destruct (SubmitReview.not_reviewable order) eqn:Hn.
  { left. by rewrite (review_not_reviewable d env w Hm Hr orders order). }
  right. split; [reflexivity|].
  destruct (find (fun r => String.eqb (rv_orderId r) (SubmitReview.orderId d))
                 (stored_reviews w)) as [existing|] eqn:Hfind.
  { left.
    by rewrite (review_duplicate d env w Hm Hr orders order Hf Ho Hn existing). }
  right.
  destruct (write_result env 0) as [|m0 c0] eqn:H0.
  - destruct (write_result env 1) as [|m1 c1] eqn:H1.
    + left. rewrite (review_accepted d env w Hm Hr orders order) by done.
      exists (SubmitReview.make_review d order env). reflexivity.
    + right.
      rewrite (review_second_write_fault d env w Hm Hr orders order
                 Hf Ho Hn Hfind m1 c1) by done.
      simpl. eauto.
  - right.
    rewrite (review_first_write_fault d env w Hm Hr orders order
               Hf Ho Hn Hfind m0 c0) by done.
    simpl. eauto.
Qed.

(** ** Eligibility (C5) *)

(** C5: for every review request naming an order present in the Order
    Store, if the order neither has [canReview] true nor a status equal
    to "delivered" up to letter case, the request is answered 400 and
    neither store is written (the world is left as found); the message
    is "Can only review delivered orders" once the field and range
    checks, which come first, have passed.  If either condition holds,
    that is not the response. *)
Theorem review_requires_delivered_order (d : ReviewRequest) (env : Env)
    (w : World) (orders : gmap string Order) (order : Order) :
  orders_file w = Some orders ->
  orders !! SubmitReview.orderId d = Some order ->
  (~ eligible order ->
     statusCode (fst (SubmitReview.handler (post d) env w)) = 400
     /\ snd (SubmitReview.handler (post d) env w) = w
     /\ (SubmitReview.missing_fields d = false ->
         SubmitReview.out_of_range d = false ->
         fst (SubmitReview.handler (post d) env w)
         = respond SubmitReview.corsHeaders 400
             (ErrorBody "Can only review delivered orders")))
  /\ (eligible order ->
      response_body (fst (SubmitReview.handler (post d) env w))
      <> ErrorBody "Can only review delivered orders").
Proof.
  intros Hf Ho.
  assert (Hat : order_at w (SubmitReview.orderId d) = Some order).
  { unfold order_at. rewrite Hf. exact Ho. }
  split.
  - intros Hne.
    assert (Hn : SubmitReview.not_reviewable order = true).
    { destruct (SubmitReview.not_reviewable order) eqn:E; [reflexivity|].
      by apply not_reviewable_iff in E. }
    destruct (SubmitReview.missing_fields d) eqn:Hm.
    { rewrite review_missing_fields by done. simpl. by repeat split. }
    destruct (SubmitReview.out_of_range d) eqn:Hr.
    { rewrite review_out_of_range by done. simpl. by repeat split. }
    rewrite (review_not_reviewable d env w Hm Hr orders order) by done.
    simpl. by repeat split.
  - intros He. apply not_reviewable_iff in He.
    destruct (review_decision d env w)
      as [[_ E]|[(_ & _ & E)|[(_ & _ & Hnone & _)|(o & _ & _ & Ho' & E)]]];
      try (rewrite E; simpl; congruence); [congruence|].
    rewrite Hat in Ho'. injection Ho' as <-.
    destruct E as [[Hn _]|(_ & [E|[[review E]|[message E]]])];
      [congruence | rewrite E; simpl; congruence ..].
Qed.

Lemma review_requires_delivered_order_witness :
  let d := Sample.review_request "ORD123" 5 in
  statusCode (fst (SubmitReview.handler (post d) Sample.env_ok Sample.world))
  = 400
  /\ snd (SubmitReview.handler (post d) Sample.env_ok Sample.world)
     = Sample.world
  /\ fst (SubmitReview.handler (post d) Sample.env_ok Sample.world)
     = respond SubmitReview.corsHeaders 400
         (ErrorBody "Can only review delivered orders")
  /\ response_body
       (fst (SubmitReview.handler (post d) Sample.env_ok
               Sample.delivered_world))
     <> ErrorBody "Can only review delivered orders".
Proof.
  destruct (review_requires_delivered_order
              (Sample.review_request "ORD123" 5) Sample.env_ok Sample.world
              Sample.orders (Sample.order "shipped" (Some [Sample.picked_up])))
    as [Hreject _]; [vm_compute; reflexivity ..|].
  destruct Hreject as (Hcode & Hworld & Hmessage).
  { intros [H|(s & Hs & Hl)]; [discriminate|].
    injection Hs as <-. vm_compute in Hl. discriminate. }
  split; [exact Hcode|]. split; [exact Hworld|].
  split; [apply Hmessage; reflexivity|].
  eapply (proj2 (review_requires_delivered_order
                   (Sample.review_request "ORD123" 5) Sample.env_ok
                   Sample.delivered_world _ _ eq_refl eq_refl)).
  left. reflexivity.
Defined.

(** ** Rating range (C3) *)

Lemma Qltb_lt (x y : Q) : Js.Qltb x y = true <-> (x < y)%Q.
Proof.
  unfold Js.Qltb. rewrite negb_true_iff. split.
  - intros H. apply Qnot_le_lt. intros Hle.
    apply Qle_bool_iff in Hle. congruence.
  - intros H. destruct (Qle_bool y x) eqn:E; [|reflexivity].
    apply Qle_bool_iff in E. exfalso. by eapply Qlt_not_le.
Qed.

Lemma out_of_range_iff (d : ReviewRequest) (rating : Q) :
  rq_rating d = Some rating ->
  SubmitReview.out_of_range d = true <-> (rating < 1 \/ 5 < rating)%Q.
Proof.
  intros H. unfold SubmitReview.out_of_range. rewrite H. simpl.
  by rewrite orb_true_iff, !Qltb_lt.
Qed.

Lemma zero_rating_missing (d : ReviewRequest) (rating : Q) :
  rq_rating d = Some rating -> (rating == 0)%Q ->
  SubmitReview.missing_fields d = true.
Proof.
  intros H Hz. unfold SubmitReview.missing_fields. rewrite H. simpl.
  apply Qeq_bool_iff in Hz. rewrite Hz. simpl.
  by rewrite orb_true_r.
Qed.

(** C3, as stated, fails: a rating of 2.5 is not an integer within
    [1, 5], yet the request is not rejected; it is accepted and stored. *)
Lemma review_accepts_fractional_rating :
  let d := Sample.review_request "ORD123" (5 # 2) in
  let result :=
    SubmitReview.handler (post d) Sample.env_ok Sample.delivered_world in
  SubmitReview.missing_fields d = false
  /\ (forall z : Z, ~ (5 # 2 == inject_Z z)%Q)
  /\ statusCode (fst result) = 200
  /\ exists review,
       reviews_file (snd result) = Some [review]
       /\ rv_rating review = (5 # 2)%Q.
Proof.
  split; [reflexivity|]. split.
  { intros z H. unfold Qeq in H. simpl in H. lia. }
  split; [reflexivity|].
  eexists. split; vm_compute; reflexivity.
Qed.

(** C3 (amended): for every review request that passes the
    required-fields check, the handler rejects the request with the 400
    response "Rating must be between 1 and 5" if and only if the rating
    is below 1 or above 5.  Hence an integer rating is rejected by this
    check exactly when it lies outside [1, 5] (6 is rejected, 1 and 5
    are not), a rating of 0 never reaches it (zero fails the
    required-fields check, also a 400), and a non-integer rating between
    1 and 5, such as 2.5, passes it. *)
Theorem rating_range_check (d : ReviewRequest) (rating : Q) (env : Env)
    (w : World) :
  rq_rating d = Some rating ->
  let response := fst (SubmitReview.handler (post d) env w) in
  let range_error :=
    respond SubmitReview.corsHeaders 400
      (ErrorBody "Rating must be between 1 and 5") in
  (SubmitReview.missing_fields d = false ->
   (response = range_error <-> (rating < 1 \/ 5 < rating)%Q)
   /\ (forall z : Z, (rating == inject_Z z)%Q ->
       (response = range_error <-> ~ (1 <= z <= 5)%Z))
   /\ ((1 <= rating <= 5)%Q -> response <> range_error))
  /\ ((rating == 0)%Q ->
      response = respond SubmitReview.corsHeaders 400
                   (ErrorBody "Missing required fields: orderId, rating, comment")).
Proof.
  intros Hrating response range_error.
  assert (Hiff : SubmitReview.missing_fields d = false ->
                 (response = range_error <-> (rating < 1 \/ 5 < rating)%Q)).
  { intros Hm. rewrite <- (out_of_range_iff d rating Hrating).
    unfold response, range_error. split.
    - intros E.
      destruct (review_decision d env w)
        as [[Hm' _]|[(_ & Hr & _)
           |[(_ & _ & _ & [[_ E']|[_ E']])|(o & _ & _ & _ & E')]]];
        [congruence | exact Hr | rewrite E' in E; discriminate E ..|].
      destruct E' as [[_ E']|(_ & [E'|[[review E']|[message E']]])];
        rewrite E' in E; discriminate E.
    - intros Hr. by rewrite review_out_of_range. }
  split.
  - intros Hm. split; [by apply Hiff|]. split.
    + intros z Hz. rewrite (Hiff Hm), Hz.
      change 1%Q with (inject_Z 1). change 5%Q with (inject_Z 5).
      rewrite <- !Zlt_Qlt. lia.
    + intros [Hlo Hhi]. rewrite (Hiff Hm). intros [H|H].
      * by eapply Qlt_not_le.
      * by eapply Qlt_not_le.
  - intros Hz. unfold response.
    by rewrite (review_missing_fields d env w (zero_rating_missing d rating
                                                  Hrating Hz)).
Qed.

Lemma rating_range_check_witness :
  let d := Sample.review_request "ORD123" 6 in
  let response :=
    fst (SubmitReview.handler (post d) Sample.env_ok Sample.delivered_world) in
  let range_error :=
    respond SubmitReview.corsHeaders 400
      (ErrorBody "Rating must be between 1 and 5") in
  (response = range_error <-> (6 < 1 \/ 5 < 6)%Q)
  /\ (forall z : Z, (6 == inject_Z z)%Q ->
      (response = range_error <-> ~ (1 <= z <= 5)%Z))
  /\ ((1 <= 6 <= 5)%Q -> response <> range_error).
Proof.
  destruct (rating_range_check (Sample.review_request "ORD123" 6) 6
              Sample.env_ok Sample.delivered_world eq_refl) as [Hrange _].
  apply Hrange. reflexivity.
Defined.

(** ** The stored review (C7) *)

(** C7: for every accepted review (a 200 response to a request other
    than pre-flight), the record appended to the Review Store, which is
    the one echoed in the response, has [verified] true, its comment is
    the submitted comment without the white space at its two ends, its
    [customerName] is the caller's value when that is non-empty, else
    the order's [customerName] when that is non-empty, else "Anonymous",
    and its [productName] is the caller's value when that is non-empty,
    else the name of the first of the order's items when there is one
    and its name is non-empty, else "Product". *)
Theorem accepted_review_record (event : Event ReviewRequest) (env : Env)
    (w : World) :
  statusCode (fst (SubmitReview.handler event env w)) = 200 ->
  httpMethod event <> "OPTIONS" ->
  exists d order review comment,
    event = post d
    /\ order_at w (SubmitReview.orderId d) = Some order
    /\ response_body (fst (SubmitReview.handler event env w))
       = ReviewOk (rv_id review) "Review submitted successfully" review
    /\ reviews_file (snd (SubmitReview.handler event env w))
       = Some (stored_reviews w ++ [review])%list
    /\ rv_verified review = true
    /\ rq_comment d = Some comment
    /\ is_trim_of comment (rv_comment review)
    /\ first_truthy (rq_customerName d) (customerName order) "Anonymous"
         (rv_customerName review)
    /\ first_truthy (rq_productName d)
         match items order with
         | Some (item :: _) => item_name item
         | _ => None
         end
         "Product" (rv_productName review).
Proof.
  intros H200 Hmethod.
  destruct (review_outcomes event env w)
    as [[_ [[Hopt _]|Herr]]
       |(d & orders & order & -> & Hm & Hr & Hf & Ho & Hn & Hfind)].
  - contradiction.
  - rewrite H200 in Herr. simpl in Herr. intuition discriminate.
  - destruct (review_write_path_status d env w orders order Hm Hr Hf Ho Hn Hfind)
      as [(H0 & H1 & _)|E]; [|rewrite E in H200; discriminate].
    assert (Hc : Js.truthy (rq_comment d) = true).
    { unfold SubmitReview.missing_fields in Hm.
      apply orb_false_iff in Hm as [_ Hm]. by apply negb_false_iff in Hm. }
    apply truthy_default in Hc.
    exists d, order, (SubmitReview.make_review d order env),
           (default "" (rq_comment d)).
    rewrite (review_accepted d env w Hm Hr orders order Hf Ho Hn Hfind H0 H1).
    simpl.
    split; [reflexivity|].
    split; [unfold order_at; by rewrite Hf|].
    split; [reflexivity|]. split; [reflexivity|]. split; [reflexivity|].
    split; [exact Hc|].
    split; [apply trim_is_trim_of|].
    split; [apply or_first_truthy|].
    rewrite <- first_item_name_head. apply or_first_truthy.
Qed.

Lemma accepted_review_record_witness :
  let event := post (Sample.review_request "ORD123" 5) in
  exists d order review comment,
    event = post d
    /\ order_at Sample.delivered_world (SubmitReview.orderId d) = Some order
    /\ response_body
         (fst (SubmitReview.handler event Sample.env_ok Sample.delivered_world))
       = ReviewOk (rv_id review) "Review submitted successfully" review
    /\ reviews_file
         (snd (SubmitReview.handler event Sample.env_ok Sample.delivered_world))
       = Some (stored_reviews Sample.delivered_world ++ [review])%list
    /\ rv_verified review = true
    /\ rq_comment d = Some comment
    /\ is_trim_of comment (rv_comment review)
    /\ first_truthy (rq_customerName d) (customerName order) "Anonymous"
         (rv_customerName review)
    /\ first_truthy (rq_productName d)
         match items order with
         | Some (item :: _) => item_name item
         | _ => None
         end
         "Product" (rv_productName review).
Proof.
  apply (accepted_review_record (post (Sample.review_request "ORD123" 5))
           Sample.env_ok Sample.delivered_world).
  - vm_compute. reflexivity.
  - discriminate.
Defined.

(** ** One review per order (C2) *)

Lemma reviews_for_app (k : string) (l1 l2 : list Review) :
  reviews_for k (l1 ++ l2) = (reviews_for k l1 ++ reviews_for k l2)%list.
Proof. unfold reviews_for. apply List.filter_app. Qed.

Lemma find_none_reviews_for (k : string) (l : list Review) :
  find (fun r => String.eqb (rv_orderId r) k) l = None ->
  reviews_for k l = [].
Proof.
  unfold reviews_for. induction l as [|r l IH]; simpl; [reflexivity|].
  destruct (String.eqb (rv_orderId r) k); [discriminate | exact IH].
Qed.

Lemma find_some_of_member (k : string) (l : list Review) (r : Review) :
  In r l -> rv_orderId r = k ->
  exists existing, find (fun r => String.eqb (rv_orderId r) k) l = Some existing.
Proof.
  intros Hin Hk.
  destruct (find (fun r => String.eqb (rv_orderId r) k) l) eqn:E; [eauto|].
  exfalso. pose proof (find_none _ _ E r Hin) as Hneq. simpl in Hneq.
  apply String.eqb_neq in Hneq. contradiction.
Qed.

(** Appending the review of an order that had none keeps the invariant. *)
Lemma one_review_per_order_append (reviews : list Review) (review : Review) :
  one_review_per_order (Some reviews) ->
  find (fun r => String.eqb (rv_orderId r) (rv_orderId review)) reviews = None ->
  one_review_per_order (Some (reviews ++ [review])%list).
Proof.
  intros Hinv Hfind l [= <-] k.
  rewrite reviews_for_app, length_app.
  unfold reviews_for at 2. simpl.
  destruct (String.eqb (rv_orderId review) k) eqn:E; simpl.
  - apply String.eqb_eq in E. subst k.
    rewrite (find_none_reviews_for _ _ Hfind). simpl. lia.
  - specialize (Hinv reviews eq_refl k). lia.
Qed.

Lemma one_review_per_order_none : one_review_per_order None.
Proof. intros l H. discriminate. Qed.

Lemma one_review_per_order_nil : one_review_per_order (Some []).
Proof. intros l [= <-] k. simpl. lia. Qed.

Lemma webhook_keeps_reviews (event : Event WebhookPayload) (env : Env)
    (w : World) :
  reviews_file (snd (Webhook.handler event env w)) = reviews_file w.
Proof.
  destruct (webhook_outcomes event env w)
    as [[Hw _]
       |[(d & orders & order & -> & Hn & Hs & Hf & Ho)
        |(d & orders & -> & Hn & Hs & Hf & Ho & Hi)]];
    [by rewrite Hw| |].
  - destruct (write_result env 0) as [|message clobbered] eqn:Hw.
    + by rewrite (webhook_persists d env w orders order).
    + by rewrite (webhook_write_fault d env w orders order message clobbered).
  - rewrite (webhook_builtin d env w orders Hn Hs Hf Ho Hi).
    by destruct (write_result env 0).
Qed.

Lemma review_keeps_invariant (event : Event ReviewRequest) (env : Env)
    (w : World) :
  one_review_per_order (reviews_file w) ->
  one_review_per_order (reviews_file (snd (SubmitReview.handler event env w))).
Proof.
  intros Hinv.
  destruct (review_outcomes event env w)
    as [[Hw _]|(d & orders & order & -> & Hm & Hr & Hf & Ho & Hn & Hfind)];
    [by rewrite Hw|].
  assert (Happ : one_review_per_order
                   (Some (stored_reviews w
                            ++ [SubmitReview.make_review d order env])%list)).
  { apply one_review_per_order_append; [|exact Hfind].
    unfold stored_reviews.
    destruct (reviews_file w); [exact Hinv | apply one_review_per_order_nil]. }
  destruct (write_result env 0) as [|m0 c0] eqn:H0.
  - destruct (write_result env 1) as [|m1 c1] eqn:H1.
    + by rewrite (review_accepted d env w Hm Hr orders order).
    + by rewrite (review_second_write_fault d env w Hm Hr orders order
                    Hf Ho Hn Hfind m1 c1).
  - rewrite (review_first_write_fault d env w Hm Hr orders order
               Hf Ho Hn Hfind m0 c0) by done.
    simpl. destruct c0; [apply one_review_per_order_none | exact Hinv].
Qed.

Lemma reachable_one_review_per_order (w : World) :
  reachable w -> one_review_per_order (reviews_file w).
Proof.
  induction 1 as [w [H|H]|event env w _ IH|event env w _ IH|orders w _ IH].
  - rewrite H. apply one_review_per_order_none.
  - rewrite H. apply one_review_per_order_nil.
  - by apply review_keeps_invariant.
  - by rewrite webhook_keeps_reviews.
  - exact IH.
Qed.

(** A request for an order that already has a stored review writes
    nothing, whatever else is wrong with it. *)
Lemma review_rejects_duplicate (d : ReviewRequest) (env : Env) (w : World)
    (existing : Review) :
  In existing (stored_reviews w) ->
  rv_orderId existing = SubmitReview.orderId d ->
  snd (SubmitReview.handler (post d) env w) = w
  /\ In (statusCode (fst (SubmitReview.handler (post d) env w))) [400; 404]%nat
  /\ (SubmitReview.missing_fields d = false ->
      SubmitReview.out_of_range d = false ->
      forall order,
        order_at w (SubmitReview.orderId d) = Some order ->
        eligible order ->
        fst (SubmitReview.handler (post d) env w)
        = respond SubmitReview.corsHeaders 400
            (ErrorBody "Review already exists for this order")).
Proof.
  intros Hin Hk.
  destruct (find_some_of_member _ _ _ Hin Hk) as [found Hfound].
  split; [|split].
  - destruct (review_outcomes (post d) env w)
      as [[Hw _]|(d' & orders & order & [= <-] & _ & _ & _ & _ & _ & Hnone)];
      [exact Hw | congruence].
  - destruct (review_decision d env w)
      as [[_ E]|[(_ & _ & E)
         |[(_ & _ & _ & [[_ E]|[_ E]])|(o & Hm & Hr & Ho & E)]]];
      try (rewrite E; simpl; tauto).
    destruct E as [[_ E]|[Hn E]]; [rewrite E; simpl; tauto|].
    unfold order_at in Ho.
    destruct (orders_file w) as [orders|] eqn:Hf; [|discriminate].
    simpl in Ho.
    rewrite (review_duplicate d env w Hm Hr orders o Hf Ho Hn found Hfound).
    simpl. tauto.
  - intros Hm Hr order Ho He. apply not_reviewable_iff in He.
    unfold order_at in Ho.
    destruct (orders_file w) as [orders|] eqn:Hf; [|discriminate].
    simpl in Ho.
    by rewrite (review_duplicate d env w Hm Hr orders order Hf Ho He found Hfound).
Qed.

(** C2: in every state reachable by invocations of the handlers, the
    Review Store holds at most one review per [orderId]; and when the
    store already holds a review whose [orderId] is the request's, the
    handler writes nothing (the world is left as found, nothing is
    appended) and answers with an error, which is the 400 response
    "Review already exists for this order" once the earlier checks
    (fields, range, order present and eligible) have passed: the
    duplicate check comes before the insertion. *)
Theorem one_review_per_order_enforced (w : World) (d : ReviewRequest)
    (env : Env) (existing : Review) :
  reachable w ->
  one_review_per_order (reviews_file w)
  /\ (In existing (stored_reviews w) ->
      rv_orderId existing = SubmitReview.orderId d ->
      snd (SubmitReview.handler (post d) env w) = w
      /\ In (statusCode (fst (SubmitReview.handler (post d) env w)))
            [400; 404]%nat
      /\ (SubmitReview.missing_fields d = false ->
          SubmitReview.out_of_range d = false ->
          forall order,
            order_at w (SubmitReview.orderId d) = Some order ->
            eligible order ->
            fst (SubmitReview.handler (post d) env w)
            = respond SubmitReview.corsHeaders 400
                (ErrorBody "Review already exists for this order"))).
Proof.
  intros Hreach. split.
  - by apply reachable_one_review_per_order.
  - apply review_rejects_duplicate.
Qed.

Lemma one_review_per_order_enforced_witness :
  let d := Sample.review_request "ORD123" 1 in
  let w := Sample.reviewed_world in
  one_review_per_order (reviews_file w)
  /\ snd (SubmitReview.handler (post d) Sample.env_later w) = w
  /\ fst (SubmitReview.handler (post d) Sample.env_later w)
     = respond SubmitReview.corsHeaders 400
         (ErrorBody "Review already exists for this order").
Proof.
  destruct (one_review_per_order_enforced Sample.reviewed_world
              (Sample.review_request "ORD123" 1) Sample.env_later
              Sample.first_review) as [Hinv Hdup].
  { apply reachable_review, reachable_webhook, reachable_start.
    left. reflexivity. }
  destruct Hdup as (Hw & _ & Hresp).
  { vm_compute. auto. }
  { reflexivity. }
  split; [exact Hinv|]. split; [exact Hw|].
  eapply Hresp; [reflexivity | reflexivity | reflexivity |].
  left. reflexivity.
Defined.

(** ** Scenarios *)

(** A missing body is parsed as the empty object. *)
Lemma webhook_absent_body (env : Env) (w : World) :
  Webhook.handler {| httpMethod := "POST"; body := BodyAbsent |} env w
  = Webhook.handler (post Webhook.no_fields) env w.
Proof. reflexivity. Qed.

Lemma review_absent_body (env : Env) (w : World) :
  SubmitReview.handler {| httpMethod := "POST"; body := BodyAbsent |} env w
  = SubmitReview.handler (post SubmitReview.no_fields) env w.
Proof. reflexivity. Qed.

Example is_delivered_ignores_case :
  Webhook.is_delivered (Sample.status_event "ORD123" "DeLiVeReD" None) = true
  /\ Webhook.is_delivered (Sample.status_event "ORD123" "delivered" None) = true
  /\ Webhook.is_delivered (Sample.status_event "ORD123" "out_for_delivery" None)
     = false.
Proof. repeat split. Qed.

(** Order ORD123 is shipped; a "Delivered" event with a delivery date
    arrives, then a review with rating 5. *)
Example delivered_then_reviewed :
  (exists o,
     order_at Sample.delivered_world "ORD123" = Some o
     /\ status o = Some "Delivered"
     /\ deliveredAt o = Some "2024-01-15"
     /\ canReview o = Some true
     /\ length (default [] (trackingUpdates o)) = 2%nat)
  /\ statusCode
       (fst (SubmitReview.handler (post (Sample.review_request "ORD123" 5))
               Sample.env_ok Sample.delivered_world)) = 200
  /\ (exists o,
        order_at Sample.reviewed_world "ORD123" = Some o
        /\ hasReview o = Some true
        /\ reviewId o = Some (rv_id Sample.first_review))
  /\ reviews_file Sample.reviewed_world = Some [Sample.first_review]
  /\ rv_comment Sample.first_review = "Great".
Proof.
  vm_compute. repeat split; try (eexists; repeat split; reflexivity).
Qed.

Example review_of_unknown_order :
  fst (SubmitReview.handler (post (Sample.review_request "ORD999" 4))
         Sample.env_ok Sample.delivered_world)
  = respond SubmitReview.corsHeaders 404 (ErrorBody "Order not found").
Proof. reflexivity. Qed.

(** An identifier that is no order but the name of an inherited member
    passes the existence test and fails the eligibility test. *)
Example review_of_inherited_member :
  order_at Sample.delivered_world "__proto__" = None
  /\ SubmitReview.handler (post Cases.inherited_review) Sample.env_ok
       Sample.delivered_world
     = (respond SubmitReview.corsHeaders 400
          (ErrorBody "Can only review delivered orders"),
        Sample.delivered_world).
Proof. split; reflexivity. Qed.

(** [trim] removes a no-break space (U+00A0), an em space (U+2003) and a
    line feed like the ASCII space, and leaves the white space inside. *)
Example trim_removes_unicode_white_space :
  Js.trim
    (string_of_list_ascii
       (map ascii_of_nat
          [194; 160; 32; 71; 111; 111; 100; 32; 109; 117; 103;
           226; 128; 131; 10]%nat))
  = "Good mug".
Proof. reflexivity. Qed.

Example rating_boundaries :
  let answer rating :=
    fst (SubmitReview.handler (post (Sample.review_request "ORD123" rating))
           Sample.env_ok Sample.delivered_world) in
  response_body (answer 0%Q)
  = ErrorBody "Missing required fields: orderId, rating, comment"
  /\ statusCode (answer 0%Q) = 400
  /\ response_body (answer 6%Q) = ErrorBody "Rating must be between 1 and 5"
  /\ statusCode (answer 6%Q) = 400
  /\ statusCode (answer 1%Q) = 200
  /\ statusCode (answer 5%Q) = 200.
Proof. vm_compute. repeat split. Qed.

(** ** Status codes *)

Ltac decide_table :=
  repeat split; intros; simpl in *;
  try reflexivity; try discriminate; try congruence.

(** X1: the status code of the webhook handler is decided by the first
    test that fails: 200 for pre-flight or for a POST that parses, has
    both required fields, passes the existence test and whose write
    completes; 405 for any other method; 400 for a parsed body without
    both required fields; 404 when the existence test fails; 500 when
    the body does not parse or the write faults.  The existence test
    passes when the store is readable and the order reference is one of
    its keys or the name of an inherited member. *)
Theorem webhook_status_table (event : Event WebhookPayload) (env : Env)
    (w : World) :
  let c := statusCode (fst (Webhook.handler event env w)) in
  let d := payload_of event in
  let k := Webhook.orderNumber d in
  let post_ok := negb (is_options event) && is_post event in
  let found := order_present w k || orders_readable w && Js.inherited k in
  (c = 200%nat <->
     is_options event
     || post_ok && parses event && webhook_valid d && found
        && write_ok env 0 = true)
  /\ (c = 405%nat <-> negb (is_options event) && negb (is_post event) = true)
  /\ (c = 400%nat <-> post_ok && parses event && negb (webhook_valid d) = true)
  /\ (c = 404%nat <->
        post_ok && parses event && webhook_valid d && negb found = true)
  /\ (c = 500%nat <->
        post_ok && (negb (parses event)
                    || webhook_valid d && found && negb (write_ok env 0))
        = true).
Proof.
  destruct event as [m b].
  unfold is_options, is_post, parses, payload_of, webhook_valid,
    order_present, orders_readable, order_at, write_ok, Webhook.handler.
  simpl.
  destruct (String.eqb m "OPTIONS") eqn:Hopt; [decide_table|].
  destruct (String.eqb m "POST") eqn:Hpost; [|decide_table].
  simpl. destruct b as [|message|d]; run_handler; [decide_table ..|].
  destruct (Js.truthy (order_number d)); [|decide_table].
  destruct (Js.truthy (current_status d)); [|decide_table].
  simpl. destruct (orders_file w) as [orders|]; [|decide_table].
  simpl. destruct (orders !! Webhook.orderNumber d); simpl.
  - destruct (write_result env 0); decide_table.
  - destruct (Js.inherited (Webhook.orderNumber d)); [|decide_table].
    simpl. destruct (write_result env 0); decide_table.
Qed.

Lemma existsb_find {A : Type} (f : A -> bool) (l : list A) :
  existsb f l = match find f l with Some _ => true | None => false end.
Proof.
  induction l as [|x l IH]; simpl; [reflexivity|].
  destruct (f x); simpl; [reflexivity | exact IH].
Qed.

(** X2: the status code of the review handler is decided by the first
    test that fails, in the order method, body, required fields, rating
    range, existence test, order eligible, no earlier review, the two
    writes.  The existence test passes for a key of the store and for
    the name of an inherited member; the latter is never eligible, so
    it is answered 400 where an unknown order is answered 404. *)
Theorem review_status_table (event : Event ReviewRequest) (env : Env)
    (w : World) :
  let c := statusCode (fst (SubmitReview.handler event env w)) in
  let d := request_of event in
  let k := SubmitReview.orderId d in
  let post_ok := negb (is_options event) && is_post event in
  let fields_ok :=
    negb (SubmitReview.missing_fields d) && negb (SubmitReview.out_of_range d) in
  let checks_ok := fields_ok && order_reviewable w k && negb (reviewed w k) in
  (c = 200%nat <->
     is_options event
     || post_ok && parses event && checks_ok
        && write_ok env 0 && write_ok env 1 = true)
  /\ (c = 405%nat <-> negb (is_options event) && negb (is_post event) = true)
  /\ (c = 400%nat <->
        post_ok && parses event
        && (negb fields_ok
            || order_present w k
               && (negb (order_reviewable w k) || reviewed w k)
            || negb (order_present w k) && Js.inherited k) = true)
  /\ (c = 404%nat <->
        post_ok && parses event && fields_ok
        && negb (order_present w k || Js.inherited k) = true)
  /\ (c = 500%nat <->
        post_ok && (negb (parses event)
                    || checks_ok
                       && (negb (write_ok env 0) || negb (write_ok env 1)))
        = true).
Proof.
  destruct event as [m b].
  unfold is_options, is_post, parses, request_of, order_present,
    order_reviewable, reviewed, stored_reviews, order_at, write_ok,
    SubmitReview.handler.
  simpl. rewrite existsb_find.
  destruct (String.eqb m "OPTIONS") eqn:Hopt; [decide_table|].
  destruct (String.eqb m "POST") eqn:Hpost; [|decide_table].
  simpl. destruct b as [|message|d]; run_handler; [decide_table ..|].
  destruct (SubmitReview.missing_fields d); [decide_table|].
  destruct (SubmitReview.out_of_range d); [decide_table|].
  simpl. destruct (orders_file w) as [orders|]; simpl.
  2: { rewrite lookup_empty.
       destruct (Js.inherited (SubmitReview.orderId d)); decide_table. }
  destruct (orders !! SubmitReview.orderId d) as [order|].
  2: { destruct (Js.inherited (SubmitReview.orderId d)); decide_table. }
  simpl. destruct (SubmitReview.not_reviewable order); [decide_table|].
  simpl. destruct (reviews_file w) as [reviews|]; simpl.
  - destruct (find _ reviews); [decide_table|].
    simpl. destruct (write_result env 0); [|decide_table].
    simpl. destruct (write_result env 1); decide_table.
  - destruct (write_result env 0); [|decide_table].
    simpl. destruct (write_result env 1); decide_table.
Qed.

(** ** Internal errors *)

(** X3: a 500 response of the webhook handler always carries the message
    of the fault behind it.  Either the body did not parse, and the
    world is left as found, or the write of the Order Store faulted:
    then that was the only write attempted, the Review Store is as it
    was, and the Order Store is as it was unless the fault clobbered
    the document. *)
Theorem webhook_internal_error (event : Event WebhookPayload) (env : Env)
    (w : World) :
  statusCode (fst (Webhook.handler event env w)) = 500 ->
  let failure message :=
    respond Webhook.corsHeaders 500
      (FailureBody "Failed to process webhook" message) in
  (exists message,
     body event = BodyMalformed message
     /\ Webhook.handler event env w = (failure message, w))
  \/ (exists message clobbered,
        write_result env 0 = WriteFault message clobbered
        /\ fst (Webhook.handler event env w) = failure message
        /\ attempted w (snd (Webhook.handler event env w)) [OrdersPath]
        /\ reviews_file (snd (Webhook.handler event env w)) = reviews_file w
        /\ orders_file (snd (Webhook.handler event env w))
           = if clobbered then None else orders_file w).
Proof.
  destruct event as [m b]. unfold attempted, Webhook.handler. simpl.
  destruct (String.eqb m "OPTIONS"); [discriminate|].
  destruct (String.eqb m "POST"); [|discriminate].
  simpl. destruct b as [|message|d]; run_handler; [discriminate| |].
  { intros _. left. eauto. }
  destruct (Js.truthy (order_number d)); [|discriminate].
  destruct (Js.truthy (current_status d)); [|discriminate].
  simpl. destruct (orders_file w) as [orders|] eqn:Hf; [|discriminate].
  simpl. destruct (orders !! Webhook.orderNumber d); simpl.
  2: destruct (Js.inherited (Webhook.orderNumber d)); [simpl|discriminate].
  all: destruct (write_result env 0) as [|message clobbered];
    [discriminate|].
  all: simpl; intros _; right; exists message, clobbered.
  all: rewrite Hf; repeat split.
Qed.

Lemma webhook_internal_error_witness :
  (exists message,
     body (@Cases.malformed WebhookPayload) = BodyMalformed message
     /\ Webhook.handler Cases.malformed Sample.env_ok Sample.world
        = (respond Webhook.corsHeaders 500
             (FailureBody "Failed to process webhook" message),
           Sample.world))
  \/ (exists message clobbered,
        write_result Sample.env_ok 0 = WriteFault message clobbered
        /\ fst (Webhook.handler Cases.malformed Sample.env_ok Sample.world)
           = respond Webhook.corsHeaders 500
               (FailureBody "Failed to process webhook" message)
        /\ attempted Sample.world
             (snd (Webhook.handler Cases.malformed Sample.env_ok Sample.world))
             [OrdersPath]
        /\ reviews_file
             (snd (Webhook.handler Cases.malformed Sample.env_ok Sample.world))
           = reviews_file Sample.world
        /\ orders_file
             (snd (Webhook.handler Cases.malformed Sample.env_ok Sample.world))
           = if clobbered then None else orders_file Sample.world).
Proof.
  apply (webhook_internal_error Cases.malformed Sample.env_ok Sample.world).
  reflexivity.
Defined.

(** X4: a 500 response of the review handler always carries the message
    of the fault behind it, and there are three ways to get one.  The
    body did not parse: the world is left as found.  The write of the
    Review Store faulted: it was the only write attempted and the Order
    Store is untouched.  The write of the Order Store faulted, after the
    Review Store was written: the review is persisted although the
    request is answered 500, and the order is not marked as reviewed. *)
Theorem review_internal_error (event : Event ReviewRequest) (env : Env)
    (w : World) :
  statusCode (fst (SubmitReview.handler event env w)) = 500 ->
  let w' := snd (SubmitReview.handler event env w) in
  let failure message :=
    respond SubmitReview.corsHeaders 500
      (FailureBody "Failed to submit review" message) in
  (exists message,
     body event = BodyMalformed message
     /\ SubmitReview.handler event env w = (failure message, w))
  \/ (exists message clobbered,
        write_result env 0 = WriteFault message clobbered
        /\ fst (SubmitReview.handler event env w) = failure message
        /\ attempted w w' [ReviewsPath]
        /\ orders_file w' = orders_file w
        /\ reviews_file w'
           = if clobbered then None else reviews_file w)
  \/ (exists message clobbered review,
        write_result env 0 = WriteOk
        /\ write_result env 1 = WriteFault message clobbered
        /\ fst (SubmitReview.handler event env w) = failure message
        /\ attempted w w' [ReviewsPath; OrdersPath]
        /\ reviews_file w' = Some (stored_reviews w ++ [review])%list
        /\ rv_orderId review = SubmitReview.orderId (request_of event)
        /\ orders_file w'
           = if clobbered then None else orders_file w).
Proof.
  destruct event as [m b].
  unfold attempted, request_of, stored_reviews, SubmitReview.handler. simpl.
  destruct (String.eqb m "OPTIONS"); [discriminate|].
  destruct (String.eqb m "POST"); [|discriminate].
  simpl. destruct b as [|message|d]; run_handler; [discriminate| |].
  { intros _. left. eauto. }
  destruct (SubmitReview.missing_fields d); [discriminate|].
  destruct (SubmitReview.out_of_range d); [discriminate|].
  simpl. destruct (orders_file w) as [orders|] eqn:Hf; simpl.
  2: { rewrite lookup_empty.
       destruct (Js.inherited (SubmitReview.orderId d)); simpl; discriminate. }
  destruct (orders !! SubmitReview.orderId d) as [order|].
  2: { destruct (Js.inherited (SubmitReview.orderId d)); simpl; discriminate. }
  simpl. destruct (SubmitReview.not_reviewable order); [discriminate|].
  simpl.
  destruct (reviews_file w) as [reviews|] eqn:Hrv; simpl.
  - destruct (find _ reviews); [discriminate|]. simpl.
    destruct (write_result env 0) as [|m0 c0]; simpl.
    + destruct (write_result env 1) as [|m1 c1]; simpl; [discriminate|].
      intros _. right; right.
      exists m1, c1, (SubmitReview.make_review d order env).
      rewrite Hf, <- app_assoc. repeat split.
    + intros _. right; left. exists m0, c0. rewrite Hf, Hrv. repeat split.
  - destruct (write_result env 0) as [|m0 c0]; simpl.
    + destruct (write_result env 1) as [|m1 c1]; simpl; [discriminate|].
      intros _. right; right.
      exists m1, c1, (SubmitReview.make_review d order env).
      rewrite Hf, <- app_assoc. repeat split.
    + intros _. right; left. exists m0, c0. rewrite Hf, Hrv. repeat split.
Qed.

Lemma review_internal_error_witness :
  let event := post (Sample.review_request "ORD123" 5) in
  let env := Cases.env_orders_fault in
  let w := Sample.delivered_world in
  let w' := snd (SubmitReview.handler event env w) in
  let failure message :=
    respond SubmitReview.corsHeaders 500
      (FailureBody "Failed to submit review" message) in
  (exists message,
     body event = BodyMalformed message
     /\ SubmitReview.handler event env w = (failure message, w))
  \/ (exists message clobbered,
        write_result env 0 = WriteFault message clobbered
        /\ fst (SubmitReview.handler event env w) = failure message
        /\ attempted w w' [ReviewsPath]
        /\ orders_file w' = orders_file w
        /\ reviews_file w'
           = if clobbered then None else reviews_file w)
  \/ (exists message clobbered review,
        write_result env 0 = WriteOk
        /\ write_result env 1 = WriteFault message clobbered
        /\ fst (SubmitReview.handler event env w) = failure message
        /\ attempted w w' [ReviewsPath; OrdersPath]
        /\ reviews_file w' = Some (stored_reviews w ++ [review])%list
        /\ rv_orderId review = SubmitReview.orderId (request_of event)
        /\ orders_file w'
           = if clobbered then None else orders_file w).
Proof.
  apply (review_internal_error (post (Sample.review_request "ORD123" 5))
           Cases.env_orders_fault Sample.delivered_world).
  reflexivity.
Defined.

(** ** What the handlers never do *)

(** The shape of a webhook invocation: the world is left as found, or
    the one write is attempted, with the updated order when the order
    was found in the store, with the document as it was when the order
    reference named an inherited member. *)
Lemma webhook_effect (event : Event WebhookPayload) (env : Env) (w : World) :
  snd (Webhook.handler event env w) = w
  \/ (exists d orders order,
        event = post d
        /\ orders_file w = Some orders
        /\ orders !! Webhook.orderNumber d = Some order
        /\ (snd (Webhook.handler event env w)
            = {| orders_file :=
                   Some (<[Webhook.orderNumber d :=
                             Webhook.update_order d env order]> orders);
                 reviews_file := reviews_file w;
                 write_log := (write_log w ++ [OrdersPath])%list |}
            \/ exists clobbered : bool,
                 snd (Webhook.handler event env w)
                 = {| orders_file := if clobbered then None else Some orders;
                      reviews_file := reviews_file w;
                      write_log := (write_log w ++ [OrdersPath])%list |}))
  \/ (exists d orders (clobbered : bool),
        event = post d
        /\ orders_file w = Some orders
        /\ orders !! Webhook.orderNumber d = None
        /\ Js.inherited (Webhook.orderNumber d) = true
        /\ snd (Webhook.handler event env w)
           = {| orders_file := if clobbered then None else Some orders;
                reviews_file := reviews_file w;
                write_log := (write_log w ++ [OrdersPath])%list |}).
Proof.
  destruct (webhook_outcomes event env w)
    as [[Hw _]
       |[(d & orders & order & -> & Hn & Hs & Hf & Ho)
        |(d & orders & -> & Hn & Hs & Hf & Ho & Hi)]]; [by left| |].
  - right; left. exists d, orders, order.
    split; [reflexivity|]. split; [exact Hf|]. split; [exact Ho|].
    destruct (write_result env 0) as [|message clobbered] eqn:Hw.
    + left. by rewrite (webhook_persists d env w orders order).
    + right. exists clobbered.
      by rewrite (webhook_write_fault d env w orders order message clobbered).
  - right; right.
    pose proof (webhook_builtin d env w orders Hn Hs Hf Ho Hi) as E.
    destruct (write_result env 0) as [|message clobbered].
    + exists d, orders, false. by rewrite E.
    + exists d, orders, clobbered. by rewrite E.
Qed.

(** The shape of a review invocation: the world is left as found, or the
    Review Store write is attempted, followed, when it completes, by the
    Order Store write. *)
Lemma review_effect (event : Event ReviewRequest) (env : Env) (w : World) :
  snd (SubmitReview.handler event env w) = w
  \/ exists d orders order,
       let review := SubmitReview.make_review d order env in
       let marked :=
         set_reviewId (Some (rv_id review)) (set_hasReview (Some true) order) in
       event = post d
       /\ orders_file w = Some orders
       /\ orders !! SubmitReview.orderId d = Some order
       /\ ((exists clobbered : bool,
              snd (SubmitReview.handler event env w)
              = {| orders_file := orders_file w;
                   reviews_file := if clobbered then None else reviews_file w;
                   write_log := (write_log w ++ [ReviewsPath])%list |})
           \/ (exists clobbered : bool,
                 snd (SubmitReview.handler event env w)
                 = {| orders_file := if clobbered then None else Some orders;
                      reviews_file := Some (stored_reviews w ++ [review])%list;
                      write_log :=
                        (write_log w ++ [ReviewsPath] ++ [OrdersPath])%list |})
           \/ snd (SubmitReview.handler event env w)
              = {| orders_file :=
                     Some (<[SubmitReview.orderId d := marked]> orders);
                   reviews_file := Some (stored_reviews w ++ [review])%list;
                   write_log :=
                     (write_log w ++ [ReviewsPath] ++ [OrdersPath])%list |}).
Proof.
  destruct (review_outcomes event env w)
    as [[Hw _]|(d & orders & order & -> & Hm & Hr & Hf & Ho & Hn & Hfind)];
    [by left|].
  right. exists d, orders, order. simpl.
  split; [reflexivity|]. split; [exact Hf|]. split; [exact Ho|].
  destruct (write_result env 0) as [|m0 c0] eqn:H0.
  - right. destruct (write_result env 1) as [|m1 c1] eqn:H1.
    + right. by rewrite (review_accepted d env w Hm Hr orders order).
    + left. exists c1.
      rewrite (review_second_write_fault d env w Hm Hr orders order
                 Hf Ho Hn Hfind m1 c1 H0 H1).
      simpl. by rewrite Hf.
  - left. exists c0.
    by rewrite (review_first_write_fault d env w Hm Hr orders order
                  Hf Ho Hn Hfind m0 c0 H0).
Qed.

Lemma webhook_order_step (event : Event WebhookPayload) (env : Env)
    (w : World) (k : string) (o o' : Order) :
  order_at w k = Some o ->
  order_at (snd (Webhook.handler event env w)) k = Some o' ->
  o' = o
  \/ exists d, event = post d /\ k = Webhook.orderNumber d
               /\ o' = Webhook.update_order d env o.
Proof.
  intros Ho Ho'.
  destruct (webhook_effect event env w)
    as [E|[(d & orders & order & -> & Hf & Hk & [E|[clobbered E]])
          |(d & orders & clobbered & -> & Hf & _ & _ & E)]];
    rewrite E in Ho'; clear E.
  - left. congruence.
  - unfold order_at in *. rewrite Hf in Ho. simpl in *.
    destruct (decide (k = Webhook.orderNumber d)) as [->|Hne].
    + rewrite lookup_insert_eq in Ho'. right. exists d.
      repeat split. congruence.
    + rewrite lookup_insert_ne in Ho' by congruence. left. congruence.
  - unfold order_at in *. rewrite Hf in Ho. simpl in *.
    destruct clobbered; simpl in Ho'; [discriminate|]. left. congruence.
  - unfold order_at in *. rewrite Hf in Ho. simpl in *.
    destruct clobbered; simpl in Ho'; [discriminate|]. left. congruence.
Qed.

Lemma review_order_step (event : Event ReviewRequest) (env : Env)
    (w : World) (k : string) (o o' : Order) :
  order_at w k = Some o ->
  order_at (snd (SubmitReview.handler event env w)) k = Some o' ->
  o' = o
  \/ exists d, event = post d /\ k = SubmitReview.orderId d
               /\ o' = set_reviewId (Some (SubmitReview.new_reviewId env))
                         (set_hasReview (Some true) o).
Proof.
  intros Ho Ho'.
  destruct (review_effect event env w)
    as [E|(d & orders & order & -> & Hf & Hk
           & [[clobbered E]|[[clobbered E]|E]])];
    rewrite E in Ho'; clear E; unfold order_at in *; simpl in *.
  - left. congruence.
  - left. congruence.
  - rewrite Hf in Ho. simpl in Ho.
    destruct clobbered; simpl in Ho'; [discriminate|]. left. congruence.
  - rewrite Hf in Ho. simpl in Ho.
    destruct (decide (k = SubmitReview.orderId d)) as [->|Hne].
    + rewrite lookup_insert_eq in Ho'. right. exists d.
      repeat split. congruence.
    + rewrite lookup_insert_ne in Ho' by congruence. left. congruence.
Qed.

(** X5: neither handler adds or removes an order.  When the Order Store
    is readable before and after an invocation its set of keys is the
    same, and a store that was unreadable is never created. *)
Theorem order_keys_preserved (webhook_event : Event WebhookPayload)
    (review_event : Event ReviewRequest) (env : Env) (w : World) :
  let after_webhook := snd (Webhook.handler webhook_event env w) in
  let after_review := snd (SubmitReview.handler review_event env w) in
  (forall orders orders',
     orders_file w = Some orders ->
     (orders_file after_webhook = Some orders' -> dom orders' = dom orders)
     /\ (orders_file after_review = Some orders' -> dom orders' = dom orders))
  /\ (orders_file w = None ->
      orders_file after_webhook = None /\ orders_file after_review = None).
Proof.
  simpl. split.
  - intros orders orders' Hf. split; intros Hf'.
    + destruct (webhook_effect webhook_event env w)
        as [E|[(d & os & order & -> & Hos & Hk & [E|[clobbered E]])
              |(d & os & clobbered & -> & Hos & _ & _ & E)]];
        rewrite E in Hf'; clear E; simpl in Hf'.
      * congruence.
      * rewrite Hf in Hos. injection Hos as <-. injection Hf' as <-.
        apply dom_insert_lookup_L. by rewrite Hk.
      * destruct clobbered; congruence.
      * destruct clobbered; congruence.
    + destruct (review_effect review_event env w)
        as [E|(d & os & order & -> & Hos & Hk
               & [[clobbered E]|[[clobbered E]|E]])];
        rewrite E in Hf'; clear E; simpl in Hf'.
      * congruence.
      * congruence.
      * destruct clobbered; congruence.
      * rewrite Hf in Hos. injection Hos as <-. injection Hf' as <-.
        apply dom_insert_lookup_L. by rewrite Hk.
  - intros Hf. split.
    + destruct (webhook_effect webhook_event env w)
        as [E|[(d & os & order & _ & Hos & _)|(d & os & c & _ & Hos & _)]];
        [by rewrite E | congruence ..].
    + destruct (review_effect review_event env w)
        as [E|(d & os & order & _ & Hos & _)]; [by rewrite E | congruence].
Qed.

Lemma order_keys_preserved_witness :
  exists orders',
    orders_file (snd (Webhook.handler (post Cases.in_transit)
                        Sample.env_ok Sample.world)) = Some orders'
    /\ dom orders' = dom Sample.orders.
Proof.
  eexists. split; [reflexivity|].
  apply (proj1 (proj1 (order_keys_preserved (post Cases.in_transit)
                         (post (Sample.review_request "ORD123" 5))
                         Sample.env_ok Sample.world)
                  Sample.orders _ eq_refl)).
  reflexivity.
Defined.

(** X6: the flags of an order are never reset.  Through any invocation
    of either handler, an order that is still in the store keeps
    [canReview] true once it is true (a later status such as "returned"
    does not revoke it) and keeps [hasReview] true once it is true. *)
Theorem order_flags_never_reset (webhook_event : Event WebhookPayload)
    (review_event : Event ReviewRequest) (env : Env) (w : World)
    (k : string) (o o' : Order) :
  order_at w k = Some o ->
  order_at (snd (Webhook.handler webhook_event env w)) k = Some o'
  \/ order_at (snd (SubmitReview.handler review_event env w)) k = Some o' ->
  (canReview o = Some true -> canReview o' = Some true)
  /\ (hasReview o = Some true -> hasReview o' = Some true).
Proof.
  intros Ho [Ho'|Ho'].
  - destruct (webhook_order_step _ _ _ _ _ _ Ho Ho') as [->|(d & _ & _ & ->)];
      [tauto|].
    unfold Webhook.update_order.
    destruct (Webhook.is_delivered d); simpl; tauto.
  - destruct (review_order_step _ _ _ _ _ _ Ho Ho') as [->|(d & _ & _ & ->)];
      [tauto|].
    simpl. tauto.
Qed.

Lemma order_flags_never_reset_witness :
  exists o',
    order_at (snd (Webhook.handler
                     (post (Sample.status_event "ORD123" "returned" None))
                     Sample.env_later Sample.delivered_world)) "ORD123"
    = Some o'
    /\ status o' = Some "returned"
    /\ canReview o' = Some true.
Proof.
  eexists. split; [reflexivity|]. split; [reflexivity|].
  eapply (proj1 (order_flags_never_reset
                   (post (Sample.status_event "ORD123" "returned" None))
                   (post (Sample.review_request "ORD123" 5))
                   Sample.env_later Sample.delivered_world "ORD123" _ _
                   eq_refl (or_introl eq_refl))).
  reflexivity.
Defined.





(** X9: the writes of an invocation.  The webhook handler attempts no
    write or the one write of the Order Store.  The review handler
    attempts no write, or the write of the Review Store, or that write
    followed by the write of the Order Store, never the other way round:
    whenever the Order Store document is not as it was, the review was
    appended to the Review Store first. *)
Theorem write_discipline (webhook_event : Event WebhookPayload)
    (review_event : Event ReviewRequest) (env : Env) (w : World) :
  let after_webhook := snd (Webhook.handler webhook_event env w) in
  let after_review := snd (SubmitReview.handler review_event env w) in
  (attempted w after_webhook [] \/ attempted w after_webhook [OrdersPath])
  /\ (attempted w after_review []
      \/ attempted w after_review [ReviewsPath]
      \/ attempted w after_review [ReviewsPath; OrdersPath])
  /\ (orders_file after_review <> orders_file w ->
      attempted w after_review [ReviewsPath; OrdersPath]
      /\ exists review,
           reviews_file after_review
           = Some (stored_reviews w ++ [review])%list
           /\ rv_orderId review = SubmitReview.orderId (request_of review_event)).
Proof.
  unfold attempted. simpl. split; [|split].
  - destruct (webhook_effect webhook_event env w)
      as [E|[(d & orders & order & _ & _ & _ & [E|[clobbered E]])
            |(d & orders & clobbered & _ & _ & _ & _ & E)]];
      rewrite E; simpl; [left; by rewrite app_nil_r | by right ..].
  - destruct (review_effect review_event env w)
      as [E|(d & orders & order & _ & _ & _
             & [[clobbered E]|[[clobbered E]|E]])];
      rewrite E; simpl; [left; by rewrite app_nil_r | auto ..].
  - destruct (review_effect review_event env w)
      as [E|(d & orders & order & -> & _ & _
             & [[clobbered E]|[[clobbered E]|E]])];
      rewrite E; simpl; intros Hchanged; try contradiction.
    + split; [reflexivity|]. by eexists.
    + split; [reflexivity|]. by eexists.
Qed.

(** ** Accepted requests *)

(** A 200 of the webhook handler for an order of the store. *)
Lemma webhook_accept_inversion (d : WebhookPayload) (env : Env) (w : World)
    (order : Order) :
  order_at w (Webhook.orderNumber d) = Some order ->
  statusCode (fst (Webhook.handler (post d) env w)) = 200 ->
  exists orders,
    Js.truthy (order_number d) = true
    /\ Js.truthy (current_status d) = true
    /\ orders_file w = Some orders
    /\ orders !! Webhook.orderNumber d = Some order
    /\ write_result env 0 = WriteOk.
Proof.
  intros Hat H200. unfold order_at in Hat.
  destruct (webhook_outcomes (post d) env w)
    as [[_ [[Hopt _]|Hcode]]
       |[(d' & orders & order' & [= <-] & Hn & Hs & Hf & Ho)
        |(d' & orders & [= <-] & Hn & Hs & Hf & Ho & Hi)]].
  - discriminate.
  - rewrite H200 in Hcode. simpl in Hcode. intuition discriminate.
  - rewrite Hf in Hat. simpl in Hat.
    assert (order' = order) as -> by congruence.
    exists orders. repeat split; try done.
    destruct (write_result env 0) as [|message clobbered] eqn:Hw; [done|].
    rewrite (webhook_write_fault d env w orders order message clobbered
               Hn Hs Hf Ho Hw) in H200.
    discriminate.
  - rewrite Hf in Hat. simpl in Hat. congruence.
Qed.

Lemma review_accept_inversion (d : ReviewRequest) (env : Env) (w : World) :
  statusCode (fst (SubmitReview.handler (post d) env w)) = 200 ->
  exists orders order,
    SubmitReview.missing_fields d = false
    /\ SubmitReview.out_of_range d = false
    /\ orders_file w = Some orders
    /\ orders !! SubmitReview.orderId d = Some order
    /\ SubmitReview.not_reviewable order = false
    /\ find (fun r => String.eqb (rv_orderId r) (SubmitReview.orderId d))
            (stored_reviews w) = None
    /\ write_result env 0 = WriteOk
    /\ write_result env 1 = WriteOk.
Proof.
  intros H200.
  destruct (review_outcomes (post d) env w)
    as [[_ [[Hopt _]|Hcode]]
       |(d' & orders & order & [= <-] & Hm & Hr & Hf & Ho & Hn & Hfind)].
  - discriminate.
  - rewrite H200 in Hcode. simpl in Hcode. intuition discriminate.
  - exists orders, order.
    destruct (review_write_path_status d env w orders order Hm Hr Hf Ho Hn Hfind)
      as [(H0 & H1 & _)|E]; [by repeat split|].
    rewrite E in H200. discriminate.
Qed.

(** X10: what a successful status update changes.  After a 200 of the
    webhook handler for an order of the store the persisted order has
    the event's status (the one echoed in the response) and the first
    clock reading as [lastUpdated]; its review flags, customer name,
    items and remaining fields are as before; and unless the status is
    "delivered" up to letter case, [deliveredAt] and [canReview] are as
    before too. *)
Theorem webhook_update_fields (d : WebhookPayload) (env : Env) (w : World)
    (o : Order) :
  let k := Webhook.orderNumber d in
  order_at w k = Some o ->
  statusCode (fst (Webhook.handler (post d) env w)) = 200 ->
  exists o' s,
    order_at (snd (Webhook.handler (post d) env w)) k = Some o'
    /\ response_body (fst (Webhook.handler (post d) env w))
       = WebhookOk "Order status updated successfully" k s
    /\ s <> "" /\ status o' = Some s
    /\ lastUpdated o' = Some (iso_now env 0)
    /\ hasReview o' = hasReview o /\ reviewId o' = reviewId o
    /\ customerName o' = customerName o /\ items o' = items o
    /\ rest o' = rest o
    /\ (Webhook.is_delivered d = false ->
        deliveredAt o' = deliveredAt o /\ canReview o' = canReview o).
Proof.
  intros k Hat H200.
  destruct (webhook_accept_inversion d env w o Hat H200)
    as (orders & Hn & Hs & Hf & Ho & Hw).
  destruct (truthy_some _ Hs) as (s & Hcs & Hne).
  exists (Webhook.update_order d env o), s.
  rewrite (webhook_persists d env w orders o Hn Hs Hf Ho Hw). simpl.
  split; [by eapply order_at_insert|].
  split; [by rewrite Hcs|].
  split; [exact Hne|].
  unfold Webhook.update_order.
  destruct (Webhook.is_delivered d); simpl; rewrite Hcs;
    repeat split; discriminate.
Qed.

Lemma webhook_update_fields_witness :
  let d := Cases.in_transit in
  exists o o' s,
    order_at Sample.reviewed_world "ORD123" = Some o
    /\ order_at (snd (Webhook.handler (post d) Sample.env_later
                        Sample.reviewed_world)) "ORD123" = Some o'
    /\ response_body (fst (Webhook.handler (post d) Sample.env_later
                             Sample.reviewed_world))
       = WebhookOk "Order status updated successfully" "ORD123" s
    /\ s <> "" /\ status o' = Some s
    /\ lastUpdated o' = Some (iso_now Sample.env_later 0)
    /\ hasReview o' = hasReview o /\ reviewId o' = reviewId o
    /\ customerName o' = customerName o /\ items o' = items o
    /\ rest o' = rest o
    /\ (Webhook.is_delivered d = false ->
        deliveredAt o' = deliveredAt o /\ canReview o' = canReview o).
Proof.
  simpl. eexists.
  destruct (webhook_update_fields Cases.in_transit Sample.env_later
              Sample.reviewed_world _ eq_refl eq_refl) as (o' & s & H).
  exists o', s. split; [reflexivity | exact H].
Defined.

(** X11: the webhook handler does not recognise a repeated event.
    Processing the same event for an order of the store twice,
    successfully, appends its tracking entry twice. *)
Theorem webhook_repeated_event (d : WebhookPayload) (env1 env2 : Env)
    (w : World) (o : Order) :
  let w1 := snd (Webhook.handler (post d) env1 w) in
  let w2 := snd (Webhook.handler (post d) env2 w1) in
  order_at w (Webhook.orderNumber d) = Some o ->
  statusCode (fst (Webhook.handler (post d) env1 w)) = 200 ->
  statusCode (fst (Webhook.handler (post d) env2 w1)) = 200 ->
  exists o2,
    order_at w2 (Webhook.orderNumber d) = Some o2
    /\ tracking_of o2
       = (tracking_of o
            ++ [Webhook.tracking_entry d; Webhook.tracking_entry d])%list.
Proof.
  intros w1 w2 Hat H1 H2.
  destruct (webhook_accept_inversion d env1 w o Hat H1)
    as (orders & Hn & Hs & Hf & Ho & Hw).
  pose proof (webhook_persists d env1 w orders o Hn Hs Hf Ho Hw) as E1.
  assert (Hf1 : orders_file w1
                = Some (<[Webhook.orderNumber d :=
                            Webhook.update_order d env1 o]> orders)).
  { unfold w1. by rewrite E1. }
  assert (Hat1 : order_at w1 (Webhook.orderNumber d)
                 = Some (Webhook.update_order d env1 o)).
  { unfold order_at. rewrite Hf1. simpl. apply lookup_insert_eq. }
  destruct (webhook_accept_inversion d env2 w1 _ Hat1 H2)
    as (orders1 & _ & _ & Hf1' & Ho1 & Hw2).
  exists (Webhook.update_order d env2 (Webhook.update_order d env1 o)).
  split.
  - unfold w2.
    rewrite (webhook_persists d env2 w1 _ (Webhook.update_order d env1 o)
               Hn Hs Hf1 (lookup_insert_eq _ _ _) Hw2).
    by eapply order_at_insert.
  - unfold tracking_of. rewrite !update_order_trackingUpdates. simpl.
    by rewrite <- app_assoc.
Qed.

Lemma webhook_repeated_event_witness :
  let d := Cases.in_transit in
  let w1 := snd (Webhook.handler (post d) Sample.env_ok Sample.world) in
  let w2 := snd (Webhook.handler (post d) Sample.env_later w1) in
  exists o o2,
    order_at Sample.world "ORD123" = Some o
    /\ order_at w2 "ORD123" = Some o2
    /\ tracking_of o2
       = (tracking_of o
            ++ [Webhook.tracking_entry d; Webhook.tracking_entry d])%list.
Proof.
  simpl. eexists.
  destruct (webhook_repeated_event Cases.in_transit Sample.env_ok
              Sample.env_later Sample.world _ eq_refl eq_refl eq_refl)
    as (o2 & H).
  exists o2. split; [reflexivity | exact H].
Defined.

(** X12: what an accepted review changes in the Order Store.  After a
    200 of the review handler the order is marked: [hasReview] is true
    and [reviewId] is the identifier returned in the response, which is
    the identifier of the stored review; its other fields, and every
    other order, are as before; the Review Store was written first,
    then the Order Store. *)
Theorem accepted_review_marks_order (d : ReviewRequest) (env : Env)
    (w : World) :
  statusCode (fst (SubmitReview.handler (post d) env w)) = 200 ->
  let k := SubmitReview.orderId d in
  let w' := snd (SubmitReview.handler (post d) env w) in
  exists o review,
    order_at w k = Some o
    /\ response_body (fst (SubmitReview.handler (post d) env w))
       = ReviewOk (rv_id review) "Review submitted successfully" review
    /\ last (stored_reviews w') = Some review
    /\ order_at w' k
       = Some (set_reviewId (Some (rv_id review))
                 (set_hasReview (Some true) o))
    /\ (forall k', k' <> k -> order_at w' k' = order_at w k')
    /\ attempted w w' [ReviewsPath; OrdersPath].
Proof.
  intros H200 k w'.
  destruct (review_accept_inversion d env w H200)
    as (orders & order & Hm & Hr & Hf & Ho & Hn & Hfind & H0 & H1).
  exists order, (SubmitReview.make_review d order env).
  unfold w', attempted.
  rewrite (review_accepted d env w Hm Hr orders order Hf Ho Hn Hfind H0 H1).
  simpl.
  split; [unfold order_at; by rewrite Hf|].
  split; [reflexivity|].
  split; [unfold stored_reviews; simpl; apply last_snoc|].
  split; [by eapply order_at_insert|].
  split; [|reflexivity].
  intros k' Hk'. unfold k in Hk'. unfold order_at. simpl. rewrite Hf. simpl.
  apply lookup_insert_ne. congruence.
Qed.

Lemma accepted_review_marks_order_witness :
  let d := Sample.review_request "ORD123" 5 in
  let w := Sample.delivered_world in
  let w' := snd (SubmitReview.handler (post d) Sample.env_ok w) in
  exists o review,
    order_at w "ORD123" = Some o
    /\ response_body (fst (SubmitReview.handler (post d) Sample.env_ok w))
       = ReviewOk (rv_id review) "Review submitted successfully" review
    /\ last (stored_reviews w') = Some review
    /\ order_at w' "ORD123"
       = Some (set_reviewId (Some (rv_id review))
                 (set_hasReview (Some true) o))
    /\ (forall k', k' <> "ORD123" -> order_at w' k' = order_at w k')
    /\ attempted w w' [ReviewsPath; OrdersPath].
Proof.
  apply (accepted_review_marks_order (Sample.review_request "ORD123" 5)
           Sample.env_ok Sample.delivered_world).
  reflexivity.
Defined.


Lemma find_after_append (k : string) (reviews : list Review) (review : Review) :
  rv_orderId review = k ->
  exists existing,
    find (fun r => String.eqb (rv_orderId r) k) (reviews ++ [review])%list
    = Some existing.
Proof.
  intros Hk. apply (find_some_of_member k _ review); [|exact Hk].
  apply in_or_app. right. by left.
Qed.



(** X14: an accepted review cannot be repeated.  After a 200 of the
    review handler, every further request for the same order is answered
    400 and writes nothing; the same request again gets "Review already
    exists for this order". *)
Theorem accepted_review_cannot_be_repeated (d d' : ReviewRequest)
    (env env' : Env) (w : World) :
  statusCode (fst (SubmitReview.handler (post d) env w)) = 200 ->
  SubmitReview.orderId d' = SubmitReview.orderId d ->
  let w1 := snd (SubmitReview.handler (post d) env w) in
  statusCode (fst (SubmitReview.handler (post d') env' w1)) = 400
  /\ snd (SubmitReview.handler (post d') env' w1) = w1
  /\ SubmitReview.handler (post d) env' w1
     = (respond SubmitReview.corsHeaders 400
          (ErrorBody "Review already exists for this order"), w1).
Proof.
  intros H200 Hsame w1.
  destruct (review_accept_inversion d env w H200)
    as (orders & order & Hm & Hr & Hf & Ho & Hn & Hfind & H0 & H1).
  pose proof (review_accepted d env w Hm Hr orders order Hf Ho Hn Hfind H0 H1)
    as E.
  set (review := SubmitReview.make_review d order env) in *.
  set (marked := set_reviewId (Some (rv_id review))
                   (set_hasReview (Some true) order)) in *.
  assert (Hf1 : orders_file w1
                = Some (<[SubmitReview.orderId d := marked]> orders)).
  { unfold w1. by rewrite E. }
  assert (Hrv1 : stored_reviews w1 = (stored_reviews w ++ [review])%list).
  { unfold w1. by rewrite E. }
  assert (Hn1 : SubmitReview.not_reviewable marked = false) by exact Hn.
  assert (Hdup : forall r : ReviewRequest,
             SubmitReview.orderId r = SubmitReview.orderId d ->
             SubmitReview.missing_fields r = false ->
             SubmitReview.out_of_range r = false ->
             SubmitReview.handler (post r) env' w1
             = (respond SubmitReview.corsHeaders 400
                  (ErrorBody "Review already exists for this order"), w1)).
  { intros r Hk Hmr Hrr.
    destruct (find_after_append (SubmitReview.orderId r) (stored_reviews w)
                review (eq_sym Hk)) as [existing Hexisting].
    apply (review_duplicate r env' w1 Hmr Hrr _ marked Hf1) with existing;
      try done.
    - rewrite Hk. apply lookup_insert_eq.
    - by rewrite Hrv1. }
  split; [|split].
  - destruct (SubmitReview.missing_fields d') eqn:Hm'.
    { by rewrite review_missing_fields. }
    destruct (SubmitReview.out_of_range d') eqn:Hr'.
    { by rewrite review_out_of_range. }
    by rewrite Hdup.
  - destruct (SubmitReview.missing_fields d') eqn:Hm'.
    { by rewrite review_missing_fields. }
    destruct (SubmitReview.out_of_range d') eqn:Hr'.
    { by rewrite review_out_of_range. }
    by rewrite Hdup.
  - by apply Hdup.
Qed.

Lemma accepted_review_cannot_be_repeated_witness :
  let d := Sample.review_request "ORD123" 5 in
  let d' := Sample.review_request "ORD123" 2 in
  let w1 := Sample.reviewed_world in
  statusCode (fst (SubmitReview.handler (post d') Sample.env_later w1)) = 400
  /\ snd (SubmitReview.handler (post d') Sample.env_later w1) = w1
  /\ SubmitReview.handler (post d) Sample.env_later w1
     = (respond SubmitReview.corsHeaders 400
          (ErrorBody "Review already exists for this order"), w1).
Proof.
  apply (accepted_review_cannot_be_repeated
           (Sample.review_request "ORD123" 5)
           (Sample.review_request "ORD123" 2)
           Sample.env_ok Sample.env_later Sample.delivered_world);
    reflexivity.
Defined.

(** ** The handlers together *)

Lemma not_reviewable_delivered (d : WebhookPayload) (env : Env) (o : Order) :
  Webhook.is_delivered d = true ->
  SubmitReview.not_reviewable (Webhook.update_order d env o) = false.
Proof.
  intros Hd. unfold SubmitReview.not_reviewable.
  destruct (update_order_delivered d env o Hd) as [_ ->].
  reflexivity.
Qed.

(** X15: a delivery opens the order for review.  After the webhook
    handler has processed a "delivered" event for an order of the store
    successfully, the order is eligible, so that a review request for it
    that has its fields, a rating in range and no earlier review is
    accepted when its two writes complete. *)
Theorem delivered_order_becomes_reviewable (d : WebhookPayload)
    (request : ReviewRequest) (env env' : Env) (w : World) (order : Order) :
  order_at w (Webhook.orderNumber d) = Some order ->
  statusCode (fst (Webhook.handler (post d) env w)) = 200 ->
  Webhook.is_delivered d = true ->
  let k := Webhook.orderNumber d in
  let w1 := snd (Webhook.handler (post d) env w) in
  order_reviewable w1 k = true
  /\ (SubmitReview.orderId request = k ->
      SubmitReview.missing_fields request = false ->
      SubmitReview.out_of_range request = false ->
      reviewed w1 k = false ->
      write_result env' 0 = WriteOk ->
      write_result env' 1 = WriteOk ->
      statusCode (fst (SubmitReview.handler (post request) env' w1)) = 200).
Proof.
  intros Hat H200 Hd k w1.
  destruct (webhook_accept_inversion d env w order Hat H200)
    as (orders & Hn & Hs & Hf & Ho & Hw).
  pose proof (webhook_persists d env w orders order Hn Hs Hf Ho Hw) as E.
  assert (Hf1 : orders_file w1
                = Some (<[k := Webhook.update_order d env order]> orders)).
  { unfold w1. by rewrite E. }
  assert (Hrv1 : stored_reviews w1 = stored_reviews w).
  { unfold w1. by rewrite E. }
  split.
  - unfold order_reviewable.
    rewrite (order_at_insert w1 orders k _ Hf1).
    by rewrite not_reviewable_delivered.
  - intros Hk Hm Hr Hnone H0 H1.
    unfold reviewed in Hnone. rewrite existsb_find in Hnone.
    destruct (find (fun r => String.eqb (rv_orderId r) k) (stored_reviews w1))
      eqn:Hfind; [discriminate|].
    rewrite <- Hk in Hfind.
    rewrite (review_accepted request env' w1 Hm Hr _
               (Webhook.update_order d env order) Hf1); try done.
    + rewrite Hk. apply lookup_insert_eq.
    + by apply not_reviewable_delivered.
Qed.

Lemma delivered_order_becomes_reviewable_witness :
  let d := Cases.delivered in
  let w1 := snd (Webhook.handler (post d) Sample.env_ok Sample.world) in
  order_reviewable Sample.world "ORD456" = false
  /\ order_reviewable w1 "ORD456" = true
  /\ statusCode (fst (SubmitReview.handler
                        (post (Sample.review_request "ORD456" 3))
                        Sample.env_later w1)) = 200.
Proof.
  destruct (delivered_order_becomes_reviewable Cases.delivered
              (Sample.review_request "ORD456" 3) Sample.env_ok Sample.env_later
              Sample.world (Sample.order "placed" None)
              eq_refl eq_refl eq_refl) as [Hopen Haccept].
  split; [reflexivity|]. split; [exact Hopen|].
  apply Haccept; reflexivity.
Defined.

(** X16: eligibility that rests on the status alone can be lost.  When
    an order whose [canReview] is not true receives a status other than
    "delivered", it is not eligible afterwards, whatever its status was,
    and every review request for it is answered 400 and writes
    nothing. *)
Theorem status_eligibility_is_revocable (d : WebhookPayload)
    (request : ReviewRequest) (env env' : Env) (w : World) (o : Order) :
  statusCode (fst (Webhook.handler (post d) env w)) = 200 ->
  order_at w (Webhook.orderNumber d) = Some o ->
  canReview o <> Some true ->
  Webhook.is_delivered d = false ->
  SubmitReview.orderId request = Webhook.orderNumber d ->
  let w1 := snd (Webhook.handler (post d) env w) in
  order_reviewable w1 (Webhook.orderNumber d) = false
  /\ statusCode (fst (SubmitReview.handler (post request) env' w1)) = 400
  /\ snd (SubmitReview.handler (post request) env' w1) = w1.
Proof.
  intros H200 Hat Hflag Hd Hk w1.
  destruct (webhook_accept_inversion d env w o Hat H200)
    as (orders & Hn & Hs & Hf & Ho & Hw).
  pose proof (webhook_persists d env w orders o Hn Hs Hf Ho Hw) as E.
  assert (Hf1 : orders_file w1
                = Some (<[Webhook.orderNumber d :=
                            Webhook.update_order d env o]> orders)).
  { unfold w1. by rewrite E. }
  assert (Hnr : SubmitReview.not_reviewable (Webhook.update_order d env o)
                = true).
  { unfold SubmitReview.not_reviewable, Webhook.update_order. rewrite Hd.
    simpl. apply andb_true_iff. split; apply negb_true_iff.
    - by apply bool_decide_eq_false.
    - apply bool_decide_eq_false. intros Heq.
      unfold Webhook.is_delivered in Hd.
      destruct (truthy_some _ Hs) as (s & Hcs & _).
      rewrite Hcs in Heq, Hd. simpl in Heq, Hd.
      injection Heq as Heq. rewrite Heq in Hd. discriminate. }
  split; [|split].
  - unfold order_reviewable.
    rewrite (order_at_insert w1 orders _ _ Hf1). by rewrite Hnr.
  - destruct (SubmitReview.missing_fields request) eqn:Hm.
    { by rewrite review_missing_fields. }
    destruct (SubmitReview.out_of_range request) eqn:Hr.
    { by rewrite review_out_of_range. }
    rewrite (review_not_reviewable request env' w1 Hm Hr _
               (Webhook.update_order d env o) Hf1); try done.
    rewrite Hk. apply lookup_insert_eq.
  - destruct (SubmitReview.missing_fields request) eqn:Hm.
    { by rewrite review_missing_fields. }
    destruct (SubmitReview.out_of_range request) eqn:Hr.
    { by rewrite review_out_of_range. }
    rewrite (review_not_reviewable request env' w1 Hm Hr _
               (Webhook.update_order d env o) Hf1); try done.
    rewrite Hk. apply lookup_insert_eq.
Qed.

Lemma status_eligibility_is_revocable_witness :
  let w1 :=
    snd (Webhook.handler (post Cases.returned) Sample.env_ok
           Cases.delivered_elsewhere) in
  order_reviewable Cases.delivered_elsewhere "ORD789" = true
  /\ order_reviewable w1 "ORD789" = false
  /\ statusCode (fst (SubmitReview.handler
                        (post (Sample.review_request "ORD789" 5))
                        Sample.env_later w1)) = 400
  /\ snd (SubmitReview.handler (post (Sample.review_request "ORD789" 5))
            Sample.env_later w1) = w1.
Proof.
  split; [reflexivity|].
  apply (status_eligibility_is_revocable Cases.returned
           (Sample.review_request "ORD789" 5) Sample.env_ok Sample.env_later
           Cases.delivered_elsewhere (Sample.order "Delivered" None));
    try reflexivity.
  discriminate.
Defined.

(** ** Edge cases of the review handler *)

(** X17: a Review Store that cannot be read is replaced.  When the
    document is missing or does not parse, the duplicate check finds
    nothing, whatever the document held: the handler never answers
    "Review already exists for this order", and an accepted request
    leaves a store holding the new review alone. *)
Theorem unreadable_review_store_is_replaced (d : ReviewRequest) (env : Env)
    (w : World) :
  reviews_file w = None ->
  response_body (fst (SubmitReview.handler (post d) env w))
  <> ErrorBody "Review already exists for this order"
  /\ (statusCode (fst (SubmitReview.handler (post d) env w)) = 200 ->
      exists review,
        reviews_file (snd (SubmitReview.handler (post d) env w))
        = Some [review]
        /\ rv_orderId review = SubmitReview.orderId d).
Proof.
  intros Hrv.
  assert (Hstored : stored_reviews w = []).
  { unfold stored_reviews. by rewrite Hrv. }
  split.
  - destruct (review_decision d env w)
      as [[_ E]|[(_ & _ & E)
         |[(_ & _ & _ & [[_ E]|[_ E]])|(o & Hm & Hr & Ho & E)]]];
      try (rewrite E; discriminate).
    destruct E as [[_ E]|[Hn _]]; [rewrite E; discriminate|].
    unfold order_at in Ho.
    destruct (orders_file w) as [orders|] eqn:Hf; [|discriminate].
    simpl in Ho.
    assert (Hfind : find (fun r => String.eqb (rv_orderId r)
                                     (SubmitReview.orderId d))
                         (stored_reviews w) = None) by by rewrite Hstored.
    destruct (write_result env 0) as [|m0 c0] eqn:H0.
    + destruct (write_result env 1) as [|m1 c1] eqn:H1.
      * by rewrite (review_accepted d env w Hm Hr orders o).
      * by rewrite (review_second_write_fault d env w Hm Hr orders o
                      Hf Ho Hn Hfind m1 c1).
    + by rewrite (review_first_write_fault d env w Hm Hr orders o
                    Hf Ho Hn Hfind m0 c0).
  - intros H200.
    destruct (review_accept_inversion d env w H200)
      as (orders & order & Hm & Hr & Hf & Ho & Hn & Hfind & H0 & H1).
    exists (SubmitReview.make_review d order env).
    rewrite (review_accepted d env w Hm Hr orders order Hf Ho Hn Hfind H0 H1).
    simpl. by rewrite Hstored.
Qed.

Lemma unreadable_review_store_is_replaced_witness :
  let d := Sample.review_request "ORD123" 5 in
  let w := Sample.delivered_world in
  response_body (fst (SubmitReview.handler (post d) Sample.env_ok w))
  <> ErrorBody "Review already exists for this order"
  /\ exists review,
       reviews_file (snd (SubmitReview.handler (post d) Sample.env_ok w))
       = Some [review]
       /\ rv_orderId review = "ORD123".
Proof.
  destruct (unreadable_review_store_is_replaced
              (Sample.review_request "ORD123" 5) Sample.env_ok
              Sample.delivered_world eq_refl) as [Hnodup Hreplaced].
  split; [exact Hnodup|]. apply Hreplaced. reflexivity.
Defined.






(** ** What the Review Store holds *)

Lemma or_default_truthy (x : option string) (c : ascii) (s : string) :
  Js.truthy (Js.or x (Some (String c s))) = true.
Proof. unfold Js.or. by destruct (Js.truthy x) eqn:E. Qed.

Lemma make_review_ok (d : ReviewRequest) (order : Order) (env : Env) :
  SubmitReview.missing_fields d = false ->
  SubmitReview.out_of_range d = false ->
  stored_review_ok (SubmitReview.make_review d order env).
Proof.
  intros Hm Hr. unfold SubmitReview.missing_fields in Hm.
  apply orb_false_iff in Hm as [Hm _].
  apply orb_false_iff in Hm as [Hid Hrating].
  apply negb_false_iff in Hid, Hrating.
  unfold stored_review_ok. simpl.
  split; [reflexivity|]. split; [|split; [|split; [|split; [|split]]]].
  - unfold SubmitReview.out_of_range in Hr.
    destruct (rq_rating d) as [q|]; [|discriminate]. simpl in *.
    apply orb_false_iff in Hr as [Hlo Hhi].
    split; apply Qnot_lt_le; intros Hlt; apply Qltb_lt in Hlt; congruence.
  - destruct (truthy_some _ Hid) as (s & Hs & Hne).
    unfold SubmitReview.orderId. by rewrite Hs.
  - apply or_default_truthy.
  - apply or_default_truthy.
  - unfold Js.or. destruct (Js.truthy (rq_imageUrl d)) eqn:E; auto.
  - unfold SubmitReview.new_reviewId. by eexists.
Qed.

(** X19: every review in the Review Store is well formed.  In every
    world reached from an absent or empty Review Store by invocations of
    the handlers, each stored review is verified, has a rating between 1
    and 5, a non-empty order identifier, a non-empty customer name and
    product name, an image URL that is absent or non-empty, and an
    identifier that starts with "REV". *)
Theorem stored_reviews_well_formed (w : World) (r : Review) :
  reachable w -> In r (stored_reviews w) -> stored_review_ok r.
Proof.
  intros Hreach. revert r.
  induction Hreach as [w [H|H]|event env w _ IH|event env w _ IH|orders w _ IH];
    intros r Hin.
  - unfold stored_reviews in Hin. rewrite H in Hin. destruct Hin.
  - unfold stored_reviews in Hin. rewrite H in Hin. destruct Hin.
  - destruct (review_outcomes event env w)
      as [[Hw _]|(d & orders & order & -> & Hm & Hr & Hf & Ho & Hn & Hfind)].
    { rewrite Hw in Hin. by apply IH. }
    assert (Happ : In r (stored_reviews w
                           ++ [SubmitReview.make_review d order env]) ->
                   stored_review_ok r).
    { intros H. apply in_app_or in H as [H|[<-|[]]];
        [by apply IH | by apply make_review_ok]. }
    destruct (write_result env 0) as [|m0 c0] eqn:H0.
    + destruct (write_result env 1) as [|m1 c1] eqn:H1.
      * rewrite (review_accepted d env w Hm Hr orders order Hf Ho Hn Hfind
                   H0 H1) in Hin.
        by apply Happ.
      * rewrite (review_second_write_fault d env w Hm Hr orders order
                   Hf Ho Hn Hfind m1 c1 H0 H1) in Hin.
        by apply Happ.
    + rewrite (review_first_write_fault d env w Hm Hr orders order
                 Hf Ho Hn Hfind m0 c0 H0) in Hin.
      unfold stored_reviews in Hin. simpl in Hin.
      destruct c0; [destruct Hin | by apply IH].
  - unfold stored_reviews in Hin. rewrite webhook_keeps_reviews in Hin.
    by apply IH.
  - by apply IH.
Qed.

Lemma stored_reviews_well_formed_witness :
  stored_review_ok Sample.first_review.
Proof.
  apply (stored_reviews_well_formed Sample.reviewed_world Sample.first_review).
  - apply reachable_review, reachable_webhook, reachable_start.
    left. reflexivity.
  - left. reflexivity.
Defined.

(** ** Fields the webhook handler does not use *)

(** X20: the air waybill number plays no part.  The webhook handler
    finds the order by [order_number] alone and stores nothing of
    [awb_number]: two events that differ only in it get the same
    response and leave the same world. *)
Theorem webhook_ignores_awb_number (d : WebhookPayload) (awb : option string)
    (env : Env) (w : World) :
  Webhook.handler (post (with_awb_number awb d)) env w
  = Webhook.handler (post d) env w.
Proof.
  unfold Webhook.handler, post. simpl. run_handler.
  destruct (Js.truthy (order_number d)); [|reflexivity].
  destruct (Js.truthy (current_status d)); [|reflexivity].
  simpl. destruct (orders_file w) as [orders|]; [|reflexivity].
  simpl. unfold Webhook.orderNumber. simpl.
  destruct (orders !! default "" (order_number d)); reflexivity.
Qed.

(** ** Responses *)

(** X21: every response, error responses included, carries the CORS
    headers of its handler, and its status code is one of 200, 400, 404,
    405 and 500. *)
Theorem responses_carry_cors_headers (webhook_event : Event WebhookPayload)
    (review_event : Event ReviewRequest) (env : Env) (w : World) :
  let webhook_response := fst (Webhook.handler webhook_event env w) in
  let review_response := fst (SubmitReview.handler review_event env w) in
  headers webhook_response = Webhook.corsHeaders
  /\ headers review_response = SubmitReview.corsHeaders
  /\ In (statusCode webhook_response) [200; 400; 404; 405; 500]%nat
  /\ In (statusCode review_response) [200; 400; 404; 405; 500]%nat.
Proof.
  simpl.
  assert (Hwebhook :
            headers (fst (Webhook.handler webhook_event env w))
            = Webhook.corsHeaders
            /\ In (statusCode (fst (Webhook.handler webhook_event env w)))
                  [200; 400; 404; 405; 500]%nat).
  { destruct webhook_event as [m b]. unfold Webhook.handler. simpl.
    destruct (String.eqb m "OPTIONS"); [simpl; auto|].
    destruct (String.eqb m "POST"); [|simpl; auto 10].
    simpl. destruct b as [|message|d]; run_handler; [auto 10 ..|].
    destruct (Js.truthy (order_number d)); [|simpl; auto 10].
    destruct (Js.truthy (current_status d)); [|simpl; auto 10].
    simpl. destruct (orders_file w) as [orders|]; [|simpl; auto 10].
    simpl. destruct (orders !! Webhook.orderNumber d); simpl.
    2: destruct (Js.inherited (Webhook.orderNumber d)); [|simpl; auto 10].
    all: simpl; destruct (write_result env 0); simpl; auto 10. }
  assert (Hreview :
            headers (fst (SubmitReview.handler review_event env w))
            = SubmitReview.corsHeaders
            /\ In (statusCode (fst (SubmitReview.handler review_event env w)))
                  [200; 400; 404; 405; 500]%nat).
  { destruct review_event as [m b]. unfold SubmitReview.handler. simpl.
    destruct (String.eqb m "OPTIONS"); [simpl; auto|].
    destruct (String.eqb m "POST"); [|simpl; auto 10].
    simpl. destruct b as [|message|d]; run_handler; [auto 10 ..|].
    destruct (SubmitReview.missing_fields d); [simpl; auto 10|].
    destruct (SubmitReview.out_of_range d); [simpl; auto 10|].
    simpl. destruct (orders_file w) as [orders|]; simpl.
    2: { rewrite lookup_empty.
         destruct (Js.inherited (SubmitReview.orderId d)); simpl; auto 10. }
    destruct (orders !! SubmitReview.orderId d) as [order|].
    2: { destruct (Js.inherited (SubmitReview.orderId d)); simpl; auto 10. }
    simpl. destruct (SubmitReview.not_reviewable order); [simpl; auto 10|].
    simpl. destruct (reviews_file w) as [reviews|]; simpl.
    - destruct (find _ reviews); [simpl; auto 10|].
      simpl. destruct (write_result env 0); [|simpl; auto 10].
      simpl. destruct (write_result env 1); simpl; auto 10.
    - destruct (write_result env 0); [|simpl; auto 10].
      simpl. destruct (write_result env 1); simpl; auto 10. }
  tauto.
Qed.

(** X22: an accepted review records the request as submitted.  The
    stored review has the order identifier and the rating of the request
    (a rating such as 4.5 is stored as 4.5), the first clock reading as
    [createdAt], and the image URL of the request when that is
    non-empty, none otherwise. *)
Theorem accepted_review_reflects_request (d : ReviewRequest) (env : Env)
    (w : World) :
  statusCode (fst (SubmitReview.handler (post d) env w)) = 200 ->
  exists review,
    last (stored_reviews (snd (SubmitReview.handler (post d) env w)))
    = Some review
    /\ rq_orderId d = Some (rv_orderId review)
    /\ rq_rating d = Some (rv_rating review)
    /\ rv_createdAt review = iso_now env 0
    /\ (Js.truthy (rq_imageUrl d) = true -> rv_imageUrl review = rq_imageUrl d)
    /\ (Js.truthy (rq_imageUrl d) = false -> rv_imageUrl review = None).
Proof.
  intros H200.
  destruct (review_accept_inversion d env w H200)
    as (orders & order & Hm & Hr & Hf & Ho & Hn & Hfind & H0 & H1).
  exists (SubmitReview.make_review d order env).
  rewrite (review_accepted d env w Hm Hr orders order Hf Ho Hn Hfind H0 H1).
  unfold SubmitReview.missing_fields in Hm.
  apply orb_false_iff in Hm as [Hm _].
  apply orb_false_iff in Hm as [Hid Hrating].
  apply negb_false_iff in Hid, Hrating.
  simpl. split; [unfold stored_reviews; simpl; apply last_snoc|].
  split; [by apply truthy_default|].
  split.
  { destruct (rq_rating d); [reflexivity | discriminate]. }
  split; [reflexivity|].
  unfold Js.or. split; intros ->; reflexivity.
Qed.

Lemma accepted_review_reflects_request_witness :
  let d := Sample.review_request "ORD123" (9 # 2) in
  exists review,
    last (stored_reviews (snd (SubmitReview.handler (post d) Sample.env_ok
                                 Sample.delivered_world)))
    = Some review
    /\ rq_orderId d = Some (rv_orderId review)
    /\ rq_rating d = Some (rv_rating review)
    /\ rv_createdAt review = iso_now Sample.env_ok 0
    /\ (Js.truthy (rq_imageUrl d) = true -> rv_imageUrl review = rq_imageUrl d)
    /\ (Js.truthy (rq_imageUrl d) = false -> rv_imageUrl review = None).
Proof.
  apply (accepted_review_reflects_request
           (Sample.review_request "ORD123" (9 # 2)) Sample.env_ok
           Sample.delivered_world).
  reflexivity.
Defined.
